(** * SigV4 request signing and the website deployment helper

    A shallow embedding of [source/api/chalicelib/sigv4.py] and of
    [source/helper/website_helper.py], with the properties of the
    specification stated over it.

    Data representation.
    - A Python [str] is a [string]: the sequence of bytes of its UTF-8
      encoding.  Concatenation, [split("/")] and ["/".join] commute with
      UTF-8 encoding, so [s.encode("utf-8")] is the list of the bytes of
      the representing [string].
    - A Python [bytes] object is a [list byte].
    - A 32-bit word of SHA-256 is a [Z] in [0, 2^32), wrap-around written
      out with [mod].
    - [os.environ] and the [ResourceProperties] of a CloudFormation event
      are [gmap string string]; a missing key raises [KeyError].
    - The headers [dict] of a request is an association list in insertion
      order. *)

From Stdlib Require Import ZArith List Ascii String Strings.Byte Lia.
From stdpp Require Import base option list strings gmap pretty.
Import ListNotations.

Local Open Scope Z_scope.
Local Open Scope string_scope.
Local Open Scope list_scope.

(** ** [hashlib.sha256]: SHA-256 as in FIPS 180-4 *)

Module SHA256.

Definition wrap32 (x : Z) : Z := x mod 2 ^ 32.

Definition add32 (x y : Z) : Z := wrap32 (x + y).

Definition rotr (n x : Z) : Z :=
  Z.lor (Z.shiftr x n) (wrap32 (Z.shiftl x (32 - n))).

Definition shr (n x : Z) : Z := Z.shiftr x n.

Definition not32 (x : Z) : Z := Z.lxor x 0xffffffff.

Definition Ch (x y z : Z) : Z := Z.lxor (Z.land x y) (Z.land (not32 x) z).

Definition Maj (x y z : Z) : Z :=
  Z.lxor (Z.lxor (Z.land x y) (Z.land x z)) (Z.land y z).

Definition bsig0 (x : Z) : Z := Z.lxor (Z.lxor (rotr 2 x) (rotr 13 x)) (rotr 22 x).
Definition bsig1 (x : Z) : Z := Z.lxor (Z.lxor (rotr 6 x) (rotr 11 x)) (rotr 25 x).
Definition ssig0 (x : Z) : Z := Z.lxor (Z.lxor (rotr 7 x) (rotr 18 x)) (shr 3 x).
Definition ssig1 (x : Z) : Z := Z.lxor (Z.lxor (rotr 17 x) (rotr 19 x)) (shr 10 x).

(** A 32-bit constant, written as its two 16-bit halves. *)
Definition word (hi lo : Z) : Z := hi * 2 ^ 16 + lo.

(** The round constants K(0) .. K(63). *)
Definition K : list Z :=
  [
    word 0x428a 0x2f98; word 0x7137 0x4491; word 0xb5c0 0xfbcf; word 0xe9b5 0xdba5;
    word 0x3956 0xc25b; word 0x59f1 0x11f1; word 0x923f 0x82a4; word 0xab1c 0x5ed5;
    word 0xd807 0xaa98; word 0x1283 0x5b01; word 0x2431 0x85be; word 0x550c 0x7dc3;
    word 0x72be 0x5d74; word 0x80de 0xb1fe; word 0x9bdc 0x06a7; word 0xc19b 0xf174;
    word 0xe49b 0x69c1; word 0xefbe 0x4786; word 0x0fc1 0x9dc6; word 0x240c 0xa1cc;
    word 0x2de9 0x2c6f; word 0x4a74 0x84aa; word 0x5cb0 0xa9dc; word 0x76f9 0x88da;
    word 0x983e 0x5152; word 0xa831 0xc66d; word 0xb003 0x27c8; word 0xbf59 0x7fc7;
    word 0xc6e0 0x0bf3; word 0xd5a7 0x9147; word 0x06ca 0x6351; word 0x1429 0x2967;
    word 0x27b7 0x0a85; word 0x2e1b 0x2138; word 0x4d2c 0x6dfc; word 0x5338 0x0d13;
    word 0x650a 0x7354; word 0x766a 0x0abb; word 0x81c2 0xc92e; word 0x9272 0x2c85;
    word 0xa2bf 0xe8a1; word 0xa81a 0x664b; word 0xc24b 0x8b70; word 0xc76c 0x51a3;
    word 0xd192 0xe819; word 0xd699 0x0624; word 0xf40e 0x3585; word 0x106a 0xa070;
    word 0x19a4 0xc116; word 0x1e37 0x6c08; word 0x2748 0x774c; word 0x34b0 0xbcb5;
    word 0x391c 0x0cb3; word 0x4ed8 0xaa4a; word 0x5b9c 0xca4f; word 0x682e 0x6ff3;
    word 0x748f 0x82ee; word 0x78a5 0x636f; word 0x84c8 0x7814; word 0x8cc7 0x0208;
    word 0x90be 0xfffa; word 0xa450 0x6ceb; word 0xbef9 0xa3f7; word 0xc671 0x78f2 ].

(** The eight working variables, also the intermediate hash value. *)
Record regs : Type := Regs
  { ra : Z; rb : Z; rc : Z; rd : Z; re : Z; rf : Z; rg : Z; rh : Z }.

(** The initial hash value H(0). *)
Definition H0 : regs :=
  Regs (word 0x6a09 0xe667) (word 0xbb67 0xae85)
       (word 0x3c6e 0xf372) (word 0xa54f 0xf53a)
       (word 0x510e 0x527f) (word 0x9b05 0x688c)
       (word 0x1f83 0xd9ab) (word 0x5be0 0xcd19).

Definition Z_of_byte (b : byte) : Z := Z.of_N (Byte.to_N b).

Definition byte_of_Z (z : Z) : byte :=
  match Byte.of_N (Z.to_N (z mod 256)) with
  | Some b => b
  | None => x00
  end.

(** Big-endian serialisation of a 32-bit word. *)
Definition bytes_of_word (x : Z) : list byte :=
  [ byte_of_Z (Z.shiftr x 24); byte_of_Z (Z.shiftr x 16);
    byte_of_Z (Z.shiftr x 8); byte_of_Z x ].

Fixpoint words_of_bytes (l : list byte) : list Z :=
  match l with
  | b0 :: b1 :: b2 :: b3 :: rest =>
      (Z.shiftl (Z_of_byte b0) 24 + Z.shiftl (Z_of_byte b1) 16
       + Z.shiftl (Z_of_byte b2) 8 + Z_of_byte b3) :: words_of_bytes rest
  | _ => []
  end.

(** Padding: a one bit, zero bits up to 56 mod 64 bytes, then the bit
    length as a 64-bit big-endian integer. *)
Definition pad (msg : list byte) : list byte :=
  let len := Z.of_nat (length msg) in
  let zeros := Z.to_nat ((55 - len) mod 64) in
  let bits := len * 8 in
  msg ++ [x80] ++ repeat x00 zeros
      ++ bytes_of_word (Z.shiftr bits 32) ++ bytes_of_word bits.

(** Message schedule, kept newest word first: the head is W(t-1). *)
Definition next_w (rw : list Z) : Z :=
  add32 (add32 (ssig1 (nth 1 rw 0)) (nth 6 rw 0))
        (add32 (ssig0 (nth 14 rw 0)) (nth 15 rw 0)).

Fixpoint extend (n : nat) (rw : list Z) : list Z :=
  match n with
  | O => rw
  | S n' => extend n' (next_w rw :: rw)
  end.

Definition schedule (block : list byte) : list Z :=
  rev (extend 48 (rev (words_of_bytes block))).

Definition round (s : regs) (kw : Z * Z) : regs :=
  let t1 := add32 (add32 (add32 (rh s) (bsig1 (re s)))
                         (add32 (Ch (re s) (rf s) (rg s)) (fst kw))) (snd kw) in
  let t2 := add32 (bsig0 (ra s)) (Maj (ra s) (rb s) (rc s)) in
  Regs (add32 t1 t2) (ra s) (rb s) (rc s) (add32 (rd s) t1) (re s) (rf s) (rg s).

Definition compress (h : regs) (block : list byte) : regs :=
  let s := fold_left round (combine K (schedule block)) h in
  Regs (add32 (ra h) (ra s)) (add32 (rb h) (rb s))
       (add32 (rc h) (rc s)) (add32 (rd h) (rd s))
       (add32 (re h) (re s)) (add32 (rf h) (rf s))
       (add32 (rg h) (rg s)) (add32 (rh h) (rh s)).

(** One 64-byte block per step; the fuel is the number of bytes left. *)
Fixpoint blocks (fuel : nat) (l : list byte) (h : regs) : regs :=
  match fuel, l with
  | S fuel', _ :: _ => blocks fuel' (skipn 64 l) (compress h (firstn 64 l))
  | _, _ => h
  end.

Definition output (h : regs) : list byte :=
  bytes_of_word (ra h) ++ bytes_of_word (rb h) ++ bytes_of_word (rc h)
    ++ bytes_of_word (rd h) ++ bytes_of_word (re h) ++ bytes_of_word (rf h)
    ++ bytes_of_word (rg h) ++ bytes_of_word (rh h).

(** [hashlib.sha256(msg).digest()] *)
Definition digest (msg : list byte) : list byte :=
  let p := pad msg in output (blocks (length p) p H0).

End SHA256.

(** ** Hex encoding, [hmac.new(key, msg, hashlib.sha256)] *)

Definition hex_digit (n : Z) : ascii :=
  match String.get (Z.to_nat n) "0123456789abcdef" with
  | Some c => c
  | None => "0"%char
  end.

Fixpoint hex (l : list byte) : string :=
  match l with
  | [] => ""
  | b :: rest =>
      let z := SHA256.Z_of_byte b in
      String (hex_digit (z / 16)) (String (hex_digit (z mod 16)) (hex rest))
  end.

(** [s.encode("utf-8")] *)
Definition encode_utf8 (s : string) : list byte := list_byte_of_string s.

(** [hashlib.sha256(b).hexdigest()] *)
Definition sha256_hexdigest (b : list byte) : string := hex (SHA256.digest b).

Module HMAC.

Definition block_size : nat := 64.

Definition xor_byte (c : Z) (b : byte) : byte :=
  SHA256.byte_of_Z (Z.lxor (SHA256.Z_of_byte b) c).

(** Keys longer than a block are hashed first, then zero-padded. *)
Definition block_key (key : list byte) : list byte :=
  let k := if Nat.ltb block_size (length key) then SHA256.digest key else key in
  k ++ repeat x00 (block_size - length k).

(** [hmac.new(key, msg, hashlib.sha256).digest()] *)
Definition digest (key msg : list byte) : list byte :=
  let k := block_key key in
  SHA256.digest (map (xor_byte 0x5c) k
                   ++ SHA256.digest (map (xor_byte 0x36) k ++ msg)).

(** [hmac.new(key, msg, hashlib.sha256).hexdigest()] *)
Definition hexdigest (key msg : list byte) : string := hex (digest key msg).

End HMAC.

(** ** The Python run time the two modules rely on *)

(** Line feed, the ["\n"] of the source. *)
Definition LF : string := String (ascii_of_nat 10) "".

(** [s.split(sep)] for a one-character separator: never empty. *)
Fixpoint split (sep : ascii) (s : string) : list string :=
  match s with
  | "" => [""]
  | String c rest =>
      if Ascii.eqb c sep then "" :: split sep rest
      else match split sep rest with
           | h :: tl => String c h :: tl
           | [] => [String c ""]
           end
  end.

(** [sep.join(l)] *)
Definition join (sep : string) (l : list string) : string := String.concat sep l.

(** Exceptions raised on the paths modelled here.  [SystemExit] derives
    from [BaseException] only; the others derive from [Exception]. *)
Inductive exn : Type :=
| KeyError (key : string)
| IndexError
| SystemExit
| ClientError (what : string)
| RequestException (what : string)
| OSError (what : string).

Definition is_KeyError (e : exn) : bool :=
  match e with KeyError _ => true | _ => false end.

Definition is_Exception (e : exn) : bool :=
  match e with SystemExit => false | _ => true end.

(** A computation yields a value or raises, and leaves the events it
    performed, oldest first. *)
Definition M (E A : Type) : Type := (exn + A) * list E.

Definition ret {E A} (a : A) : M E A := (inr a, []).

Definition raise {E A} (e : exn) : M E A := (inl e, []).

Definition emit {E} (ev : E) : M E unit := (inr tt, [ev]).

Definition bind {E A B} (m : M E A) (k : A -> M E B) : M E B :=
  match m with
  | (inl e, tr) => (inl e, tr)
  | (inr a, tr) => let '(r, tr') := k a in (r, tr ++ tr')
  end.

(** [try: m  except <catches>: handler  else: orelse]: what [orelse]
    raises is not caught. *)
Definition try_except_else {E A B} (m : M E A) (catches : exn -> bool)
    (handler : exn -> M E B) (orelse : A -> M E B) : M E B :=
  match m with
  | (inl e, tr) =>
      if catches e then let '(r, tr') := handler e in (r, tr ++ tr')
      else (inl e, tr)
  | (inr a, tr) => let '(r, tr') := orelse a in (r, tr ++ tr')
  end.

(** [try: m  except <catches>: handler] *)
Definition try_except {E A} (m : M E A) (catches : exn -> bool)
    (handler : exn -> M E A) : M E A :=
  try_except_else m catches handler ret.

(** [for x in l: body x] *)
Fixpoint for_each {E A} (l : list A) (body : A -> M E unit) : M E unit :=
  match l with
  | [] => ret tt
  | x :: rest => bind (body x) (fun _ => for_each rest body)
  end.

(** A call into a library (boto3, requests, urllib, the file system):
    the world answers with a value or with the text of the error, which
    is raised as the [Exception] subclass [mk]. *)
Definition library_call {E A} (mk : string -> exn) (answer : string + A) : M E A :=
  match answer with
  | inl what => raise (mk what)
  | inr a => ret a
  end.

#[export] Instance M_ret {E} : MRet (M E) := fun A a => ret a.
#[export] Instance M_bind {E} : MBind (M E) := fun A B k m => bind m k.

Definition outcome {E A} (m : M E A) : exn + A := fst m.
Definition events {E A} (m : M E A) : list E := snd m.

(** [d[key]] on a dictionary of strings. *)
Definition getitem {E} (d : gmap string string) (key : string) : M E string :=
  match d !! key with
  | Some v => ret v
  | None => raise (KeyError key)
  end.

(** [l[i]] on a list. *)
Definition index {E A} (l : list A) (i : nat) : M E A :=
  match l !! i with
  | Some v => ret v
  | None => raise IndexError
  end.

(** [datetime.datetime] and the [strftime] directives the source uses. *)
Record datetime : Type := Datetime
  { year : nat; month : nat; day : nat; hour : nat; minute : nat; second : nat }.

Definition zero_pad (width n : nat) : string :=
  let s := pretty n in
  String.concat "" (repeat "0" (width - String.length s)) +:+ s.

Definition directive (t : datetime) (c : ascii) : string :=
  if Ascii.eqb c "Y" then zero_pad 4 (year t)
  else if Ascii.eqb c "m" then zero_pad 2 (month t)
  else if Ascii.eqb c "d" then zero_pad 2 (day t)
  else if Ascii.eqb c "H" then zero_pad 2 (hour t)
  else if Ascii.eqb c "M" then zero_pad 2 (minute t)
  else if Ascii.eqb c "S" then zero_pad 2 (second t)
  else String "%" (String c "").

Fixpoint strftime (t : datetime) (fmt : string) : string :=
  match fmt with
  | "" => ""
  | String c rest =>
      if Ascii.eqb c "%" then
        match rest with
        | String d rest' => directive t d +:+ strftime t rest'
        | "" => "%"
        end
      else String c (strftime t rest)
  end.

(** ** [source/api/chalicelib/sigv4.py] *)

Module SigV4.

Inductive level : Type := INFO | ERROR.

Definition dict : Type := list (string * string).

(** What the module reads of a [requests.Response]. *)
Record response : Type := Response { status_code : Z; text : string }.

Inductive event : Type :=
| Log (lvl : level) (msg : string)
| AssumeRole (RoleArn RoleSessionName : string)
| Request (http_method request_url : string) (headers : dict)
          (data : option string).

(** Everything a call depends on outside its arguments: the process
    environment, the four constants the module read from it when it was
    imported, the answer of STS, the clock and the HTTP transport.
    [AccessKeyId] and [SecretAccessKey] may be [None], which the source
    tests for. *)
Record world : Type := World
  { environ : gmap string string;
    AMC_ENDPOINT : string;
    AMC_API_ROLE : string;
    SOLUTION_NAME : string;
    SOLUTION_VERSION : string;
    assume_role : string + (option string * option string * string);
    utcnow : datetime;
    requests : string -> string -> dict -> option string -> string + response }.

Definition NO_ACCESS_KEY_ERROR : string := "No access key is available.".
Definition SIGNED_HEADERS : string := "host;x-amz-date;x-amz-security-token".

Definition sign (key : list byte) (msg : string) : list byte :=
  HMAC.digest key (encode_utf8 msg).

Definition get_signature_key (key date_stamp region_name service_name : string)
  : list byte :=
  let kdate := sign (encode_utf8 ("AWS4" +:+ key)) date_stamp in
  let kregion := sign kdate region_name in
  let kservice := sign kregion service_name in
  let ksigning := sign kservice "aws4_request" in
  ksigning.

Definition get_canonical_headers (domain_name amzdate session_token : string)
  : string :=
  "host:" +:+ domain_name +:+ LF +:+ "x-amz-date:" +:+ amzdate +:+ LF
    +:+ "x-amz-security-token:" +:+ session_token +:+ LF.

Definition get_authorization_header
    (algorithm access_key credential_scope signed_headers signature : string)
  : string :=
  algorithm +:+ " Credential=" +:+ access_key +:+ "/" +:+ credential_scope
    +:+ ", SignedHeaders=" +:+ signed_headers +:+ ", Signature=" +:+ signature.

(** The local variables of [delete], [get] and [post] once the
    credentials are known to be present. *)
Record locals : Type := Locals
  { method : string;
    amzdate : string;
    datestamp : string;
    canonical_uri : string;
    canonical_querystring : string;
    canonical_headers : string;
    signed_headers : string;
    payload_hash : string;
    canonical_request : string;
    algorithm : string;
    credential_scope : string;
    string_to_sign : string;
    signing_key : list byte;
    signature : string;
    authorization_header : string;
    headers : dict }.

Section Calls.

Variable w : world.

Definition info (msg : string) : M event unit := emit (Log INFO msg).
Definition error (msg : string) : M event unit := emit (Log ERROR msg).

Definition get_amc_api_tokens
  : M event (option string * option string * string) :=
  let role_session_name := "amcufa_api_handler" in
  info ("assuming role " +:+ AMC_API_ROLE w);;
  emit (AssumeRole (AMC_API_ROLE w) role_session_name);;
  '(access_key, secret_key, session_token) ←
    library_call ClientError (assume_role w);
  ret (access_key, secret_key, session_token).

(** [if data:] holds for a non-empty string only. *)
Definition truthy (data : option string) : bool :=
  match data with
  | Some (String _ _) => true
  | _ => false
  end.

Definition call_requests (http_method request_url : string)
    (headers : dict) (data : option string) : M event response :=
  emit (Request http_method request_url headers data);;
  library_call RequestException
    (requests w http_method request_url headers data).

Definition send_request (request_url : string) (headers : dict)
    (http_method : string) (data : option string) : M event response :=
  info (LF +:+ "BEGIN REQUEST+++++++++++++++++++++++++++++++++++");;
  info ("Request URL = " +:+ request_url);;
  response ←
    (if truthy data
     then call_requests http_method request_url headers data
     else call_requests http_method request_url headers None);
  info (LF +:+ "RESPONSE+++++++++++++++++++++++++++++++++++");;
  info ("Response code: " +:+ pretty (status_code response) +:+ LF);;
  info (text response);;
  ret response.

(** Lines 120-218 of [delete]. *)
Definition delete_locals
    (access_key secret_key session_token region endpoint domain_name : string)
    (t : datetime) : locals :=
  let method := "DELETE" in
  let service := "execute-api" in
  let amzdate := strftime t "%Y%m%dT%H%M%SZ" in
  let datestamp := strftime t "%Y%m%d" in
  let canonical_uri := "/" +:+ join "/" (drop 3 (split "/" endpoint)) in
  let canonical_querystring := "" in
  let canonical_headers :=
    get_canonical_headers domain_name amzdate session_token in
  let signed_headers := SIGNED_HEADERS in
  let payload_hash := sha256_hexdigest (encode_utf8 "") in
  let canonical_request :=
    method +:+ LF +:+ canonical_uri +:+ LF +:+ canonical_querystring +:+ LF
      +:+ canonical_headers +:+ LF +:+ signed_headers +:+ LF +:+ payload_hash in
  let algorithm := "AWS4-HMAC-SHA256" in
  let credential_scope :=
    datestamp +:+ "/" +:+ region +:+ "/" +:+ service +:+ "/" +:+ "aws4_request" in
  let string_to_sign :=
    algorithm +:+ LF +:+ amzdate +:+ LF +:+ credential_scope +:+ LF
      +:+ sha256_hexdigest (encode_utf8 canonical_request) in
  let signing_key := get_signature_key secret_key datestamp region service in
  let signature := HMAC.hexdigest signing_key (encode_utf8 string_to_sign) in
  let authorization_header :=
    get_authorization_header
      algorithm access_key credential_scope signed_headers signature in
  let headers :=
    [ ("Authorization", authorization_header);
      ("x-amz-date", amzdate);
      ("x-amz-security-token", session_token);
      ("x-amzn-service-name", SOLUTION_NAME w);
      ("x-amzn-service-version", SOLUTION_VERSION w) ] in
  Locals method amzdate datestamp canonical_uri canonical_querystring
         canonical_headers signed_headers payload_hash canonical_request
         algorithm credential_scope string_to_sign signing_key signature
         authorization_header headers.

Definition delete (path : string) : M event response :=
  '(access_key, secret_key, session_token) ← get_amc_api_tokens;
  region ← getitem (environ w) "AWS_REGION";
  let endpoint := AMC_ENDPOINT w +:+ path in
  domain_name ← index (split "/" endpoint) 2;
  match access_key, secret_key with
  | Some access_key, Some secret_key =>
      let l := delete_locals access_key secret_key session_token
                             region endpoint domain_name (utcnow w) in
      send_request endpoint (headers l) "delete" None
  | _, _ => error NO_ACCESS_KEY_ERROR;; raise SystemExit
  end.

(** Lines 242-339 of [get]. *)
Definition get_locals
    (access_key secret_key session_token region endpoint domain_name : string)
    (request_parameters : string) (t : datetime) : locals :=
  let method := "GET" in
  let service := "execute-api" in
  let amzdate := strftime t "%Y%m%dT%H%M%SZ" in
  let datestamp := strftime t "%Y%m%d" in
  let canonical_uri := "/" +:+ join "/" (drop 3 (split "/" endpoint)) in
  let canonical_querystring := request_parameters in
  let canonical_headers :=
    get_canonical_headers domain_name amzdate session_token in
  let signed_headers := SIGNED_HEADERS in
  let payload_hash := sha256_hexdigest (encode_utf8 "") in
  let canonical_request :=
    method +:+ LF +:+ canonical_uri +:+ LF +:+ canonical_querystring +:+ LF
      +:+ canonical_headers +:+ LF +:+ signed_headers +:+ LF +:+ payload_hash in
  let algorithm := "AWS4-HMAC-SHA256" in
  let credential_scope :=
    datestamp +:+ "/" +:+ region +:+ "/" +:+ service +:+ "/" +:+ "aws4_request" in
  let string_to_sign :=
    algorithm +:+ LF +:+ amzdate +:+ LF +:+ credential_scope +:+ LF
      +:+ sha256_hexdigest (encode_utf8 canonical_request) in
  let signing_key := get_signature_key secret_key datestamp region service in
  let signature := HMAC.hexdigest signing_key (encode_utf8 string_to_sign) in
  let authorization_header :=
    get_authorization_header
      algorithm access_key credential_scope signed_headers signature in
  let headers :=
    [ ("Authorization", authorization_header);
      ("x-amz-date", amzdate);
      ("x-amz-security-token", session_token);
      ("x-amzn-service-name", SOLUTION_NAME w);
      ("x-amzn-service-version", SOLUTION_VERSION w) ] in
  Locals method amzdate datestamp canonical_uri canonical_querystring
         canonical_headers signed_headers payload_hash canonical_request
         algorithm credential_scope string_to_sign signing_key signature
         authorization_header headers.

(** [get(path, request_parameters="")]; the default is the caller's to
    pass here. *)
Definition get (path request_parameters : string) : M event response :=
  '(access_key, secret_key, session_token) ← get_amc_api_tokens;
  region ← getitem (environ w) "AWS_REGION";
  let endpoint := AMC_ENDPOINT w +:+ path in
  domain_name ← index (split "/" endpoint) 2;
  match access_key, secret_key with
  | Some access_key, Some secret_key =>
      let l := get_locals access_key secret_key session_token region
                          endpoint domain_name request_parameters (utcnow w) in
      send_request (endpoint +:+ "?" +:+ canonical_querystring l)
                   (headers l) "get" None
  | _, _ => error "NO_ACCESS_KEY_ERROR";; raise SystemExit
  end.

(** Lines 365-463 of [post]. *)
Definition post_locals
    (access_key secret_key session_token region endpoint domain_name : string)
    (body_data : string) (t : datetime) : locals :=
  let method := "POST" in
  let service := "execute-api" in
  let amzdate := strftime t "%Y%m%dT%H%M%SZ" in
  let datestamp := strftime t "%Y%m%d" in
  let canonical_uri := "/" +:+ join "/" (drop 3 (split "/" endpoint)) in
  let canonical_querystring := "" in
  let canonical_headers :=
    get_canonical_headers domain_name amzdate session_token in
  let signed_headers := SIGNED_HEADERS in
  let payload_hash := sha256_hexdigest (encode_utf8 body_data) in
  let canonical_request :=
    method +:+ LF +:+ canonical_uri +:+ LF +:+ canonical_querystring +:+ LF
      +:+ canonical_headers +:+ LF +:+ signed_headers +:+ LF +:+ payload_hash in
  let algorithm := "AWS4-HMAC-SHA256" in
  let credential_scope :=
    datestamp +:+ "/" +:+ region +:+ "/" +:+ service +:+ "/" +:+ "aws4_request" in
  let string_to_sign :=
    algorithm +:+ LF +:+ amzdate +:+ LF +:+ credential_scope +:+ LF
      +:+ sha256_hexdigest (encode_utf8 canonical_request) in
  let signing_key := get_signature_key secret_key datestamp region service in
  let signature := HMAC.hexdigest signing_key (encode_utf8 string_to_sign) in
  let authorization_header :=
    get_authorization_header
      algorithm access_key credential_scope signed_headers signature in
  let headers :=
    [ ("Authorization", authorization_header);
      ("x-amz-date", amzdate);
      ("x-amz-security-token", session_token);
      ("x-amzn-service-name", SOLUTION_NAME w);
      ("x-amzn-service-version", SOLUTION_VERSION w) ] in
  Locals method amzdate datestamp canonical_uri canonical_querystring
         canonical_headers signed_headers payload_hash canonical_request
         algorithm credential_scope string_to_sign signing_key signature
         authorization_header headers.

Definition post (path body_data : string) : M event response :=
  '(access_key, secret_key, session_token) ← get_amc_api_tokens;
  region ← getitem (environ w) "AWS_REGION";
  let endpoint := AMC_ENDPOINT w +:+ path in
  domain_name ← index (split "/" endpoint) 2;
  match access_key, secret_key with
  | Some access_key, Some secret_key =>
      let l := post_locals access_key secret_key session_token region
                           endpoint domain_name body_data (utcnow w) in
      send_request endpoint (headers l) "post" (Some body_data)
  | _, _ => error "NO_ACCESS_KEY_ERROR";; raise SystemExit
  end.

End Calls.

End SigV4.

(** ** [source/helper/website_helper.py]

    The actions recorded are the calls on S3 and the callback to
    CloudFormation.
    [LOGGER.info] and [print] lines only write to the log stream and are
    left out; [json.dumps] is not modelled: an action carries the object
    that is serialised. *)

Module WebsiteHelper.

Definition dict : Type := list (string * string).

(** The CloudFormation event: its string-valued keys, and
    [ResourceProperties] if present. *)
Record cfn_event : Type := CfnEvent
  { fields : gmap string string;
    ResourceProperties : option (gmap string string) }.

Record lambda_context : Type := Context { log_stream_name : string }.

(** The object [send_response] serialises; [Data] is [{"Message": ...}]. *)
Record response_body : Type := ResponseBody
  { Status : string;
    Reason : string;
    PhysicalResourceId : string;
    StackId : string;
    RequestId : string;
    LogicalResourceId : string;
    Data : dict }.

Inductive action : Type :=
| Copy (src_bucket src_key dst_bucket dst_key : string)
| PutObject (bucket key : string) (body : dict)
| PutBucketLogging (bucket : string)
| DeleteObjects (bucket : string)
| PutResponse (url : string) (body : response_body).

(** The process environment, the manifest file as [json.load] reads it
    (its keys in order), and the answers of S3 and of the response URL
    ([inl] is a call that raises). *)
Record world : Type := World
  { environ : gmap string string;
    manifest : string + list string;
    s3_copy : string -> string -> string -> string -> string + unit;
    s3_put_object : string -> string -> dict -> string + unit;
    s3_put_bucket_logging : string -> string + unit;
    s3_delete_objects : string -> string + unit;
    opener_open : string -> response_body -> string + unit }.

Definition error_response_str : string :=
  "Unexpected event received from CloudFormation".

Section Handlers.

Variable w : world.

Definition send_response (event : cfn_event) (context : lambda_context)
    (response_status : string) (response_data : dict) : M action unit :=
  stack_id ← getitem (fields event) "StackId";
  request_id ← getitem (fields event) "RequestId";
  logical_id ← getitem (fields event) "LogicalResourceId";
  let response_body :=
    ResponseBody response_status
      ("See the details in CloudWatch Log Stream: " +:+ log_stream_name context)
      (log_stream_name context) stack_id request_id logical_id
      response_data in
  url ← getitem (fields event) "ResponseURL";
  emit (PutResponse url response_body);;
  library_call OSError (opener_open w url response_body).

Definition write_to_s3 (event : cfn_event) (context : lambda_context)
    (bucket key : string) (body : dict) : M action unit :=
  try_except
    (emit (PutObject bucket key body);;
     library_call ClientError (s3_put_object w bucket key body))
    is_Exception
    (fun e =>
       send_response event context "FAILED"
         [("Message", "Failed to write file to s3 after variable replacement")]).

(** [event["ResourceProperties"][key]] *)
Definition resource_property (event : cfn_event) (key : string)
  : M action string :=
  match ResourceProperties event with
  | Some props => getitem props key
  | None => raise (KeyError "ResourceProperties")
  end.

(** Lines 120-176 of [copy_source]: the body of its inner [try]. *)
Definition copy_files (event : cfn_event) (context : lambda_context)
    (source_bucket source_key website_bucket : string) : M action unit :=
  try_except_else
    (user_pool_id ← getitem (environ w) "UserPoolId";
     region ← getitem (environ w) "AwsRegion";
     client_id ← getitem (environ w) "PoolClientId";
     identity_id ← getitem (environ w) "IdentityPoolId";
     data_bucket_name ← getitem (environ w) "DataBucketName";
     artifact_bucket_name ← getitem (environ w) "ArtifactBucketName";
     encryption_mode ← getitem (environ w) "EncryptionMode";
     ret (user_pool_id, region, client_id, identity_id,
          data_bucket_name, artifact_bucket_name, encryption_mode))
    is_KeyError
    (fun e => ret tt)
    (fun '(user_pool_id, region, client_id, identity_id,
           data_bucket_name, artifact_bucket_name, encryption_mode) =>
       let new_variables :=
         [ ("AWS_REGION", region);
           ("USER_POOL_ID", user_pool_id);
           ("USER_POOL_CLIENT_ID", client_id);
           ("IDENTITY_POOL_ID", identity_id);
           ("DATA_BUCKET_NAME", data_bucket_name);
           ("ARTIFACT_BUCKET_NAME", artifact_bucket_name);
           ("ENCRYPTION_MODE", encryption_mode) ] in
       let replace_env_variables := true in
       manifest ← library_call OSError (manifest w);
       for_each manifest (fun key =>
         emit (Copy source_bucket (source_key +:+ "/" +:+ key)
                    website_bucket key);;
         library_call ClientError
           (s3_copy w source_bucket (source_key +:+ "/" +:+ key)
                    website_bucket key);;
         if replace_env_variables && String.eqb key "runtimeConfig.json"
         then write_to_s3 event context website_bucket key new_variables
         else ret tt)).

Definition copy_source (event : cfn_event) (context : lambda_context)
  : M action unit :=
  try_except_else
    (source_bucket ← resource_property event "WebsiteCodeBucket";
     source_key ← resource_property event "WebsiteCodePrefix";
     deployment_bucket ← resource_property event "DeploymentBucket";
     website_bucket ← index (split "." deployment_bucket) 0;
     ret (source_bucket, source_key, website_bucket))
    is_KeyError
    (fun e =>
       send_response event context "FAILED"
         [("Message",
           "Failed to retrieve required values from the CloudFormation event")])
    (fun '(source_bucket, source_key, website_bucket) =>
       try_except
         (copy_files event context source_bucket source_key website_bucket)
         is_Exception
         (fun ex =>
            send_response event context "FAILED"
              [("Message", error_response_str)]);;
       send_response event context "SUCCESS"
         [("Message", "Resource creation successful!")]).

Definition purge_bucket (event : cfn_event) (context : lambda_context)
  : M action unit :=
  try_except_else
    (deployment_bucket ← resource_property event "DeploymentBucket";
     bucket_name ← index (split "." deployment_bucket) 0;
     emit (PutBucketLogging bucket_name);;
     library_call ClientError (s3_put_bucket_logging w bucket_name);;
     emit (DeleteObjects bucket_name);;
     library_call ClientError (s3_delete_objects w bucket_name))
    is_Exception
    (fun ex =>
       send_response event context "FAILED" [("Message", error_response_str)])
    (fun _ =>
       send_response event context "SUCCESS"
         [("Message", "Resource creation successful!")]).

(** The text of [str(ex)] for the exceptions of this model. *)
Definition str_exn (ex : exn) : string :=
  match ex with
  | KeyError key => "'" +:+ key +:+ "'"
  | IndexError => "list index out of range"
  | SystemExit => ""
  | ClientError what | RequestException what | OSError what => what
  end.

Definition lambda_handler (event : cfn_event) (context : lambda_context)
  : M action unit :=
  try_except
    (request_type ← getitem (fields event) "RequestType";
     if String.eqb request_type "Create" then copy_source event context
     else if String.eqb request_type "Update" then copy_source event context
     else if String.eqb request_type "Delete" then
       purge_bucket event context;;
       send_response event context "SUCCESS"
         [("Message", "Resource deletion successful!")]
     else
       send_response event context "FAILED" [("Message", error_response_str)])
    is_Exception
    (fun ex =>
       send_response event context "FAILED"
         [("Message", "Exception during processing: " +:+ str_exn ex)]).

End Handlers.

End WebsiteHelper.

(** ** The specification's wording, and sample inputs *)

(** The key derivation as section 4.2 of the specification words it: a
    chain of four HMAC-SHA256 steps over the messages in this order, each
    output the key of the next step, starting from ["AWS4" + secretKey]. *)
Definition deriveKey (secretKey dateStamp region service : string) : list byte :=
  fold_left (fun key msg => HMAC.digest key (encode_utf8 msg))
            [dateStamp; region; service; "aws4_request"]
            (encode_utf8 ("AWS4" +:+ secretKey)).

(** The names of the signed headers, in the order of the canonical
    block, and the line each contributes to it. *)
Definition signed_header_names : list string :=
  ["host"; "x-amz-date"; "x-amz-security-token"].

Definition header_line (name value : string) : string :=
  name +:+ ":" +:+ value +:+ LF.

Definition is_upper (c : ascii) : bool :=
  (65 <=? nat_of_ascii c)%nat && (nat_of_ascii c <=? 90)%nat.

Definition lower_cased (s : string) : bool :=
  forallb (fun c => negb (is_upper c)) (list_ascii_of_string s).

(** Strictly ascending in code-point order. *)
Fixpoint strictly_ascending (l : list string) : bool :=
  match l with
  | a :: (b :: _) as rest => String.ltb a b && strictly_ascending rest
  | _ => true
  end.

(** The HTTP requests among the events of a call, and the calls to STS. *)
Definition requests_of (tr : list SigV4.event) : list SigV4.event :=
  List.filter
    (fun e => match e with SigV4.Request _ _ _ _ => true | _ => false end) tr.

Definition sts_calls_of (tr : list SigV4.event) : list SigV4.event :=
  List.filter
    (fun e => match e with SigV4.AssumeRole _ _ => true | _ => false end) tr.

Definition error_logs_of (tr : list SigV4.event) : list SigV4.event :=
  List.filter
    (fun e => match e with SigV4.Log SigV4.ERROR _ => true | _ => false end) tr.

(** A call reaches the signing code when STS answers with both keys, the
    region is set and the endpoint has a host component. *)
Definition reaches_signing (w : SigV4.world) (path : string)
    (access_key secret_key session_token region domain_name : string) : Prop :=
  SigV4.assume_role w = inr (Some access_key, Some secret_key, session_token)
  /\ SigV4.environ w !! "AWS_REGION" = Some region
  /\ split "/" (SigV4.AMC_ENDPOINT w +:+ path) !! 2%nat = Some domain_name.

(** A deployment: its environment, endpoint, role, solution name and
    version, the credentials STS returns, the time, and a transport that
    answers 200. *)
Definition sample_world
    (endpoint : string) (credentials : option string * option string * string)
  : SigV4.world :=
  SigV4.World {[ "AWS_REGION" := "us-east-1" ]} endpoint
    "arn:aws:iam::123456789012:role/amc-api" "amcufa" "v3.0.0"
    (inr credentials) (Datetime 2015 8 30 12 36 0)
    (fun _ _ _ _ => inr (SigV4.Response 200 "{}")).

Definition sample_endpoint : string := "https://api.example.com/prod".

Definition sample_credentials : option string * option string * string :=
  (Some "AKIDEXAMPLE", Some "wJalrXUtnFEMI/K7MDENG+bPxRfiCYEXAMPLEKEY", "token").

(** The events every call starts with. *)
Definition prologue (w : SigV4.world) : list SigV4.event :=
  [ SigV4.Log SigV4.INFO ("assuming role " +:+ SigV4.AMC_API_ROLE w);
    SigV4.AssumeRole (SigV4.AMC_API_ROLE w) "amcufa_api_handler" ].

(** The local variables of the three calls on the same inputs. *)
Definition all_locals (w : SigV4.world)
    (access_key secret_key session_token region endpoint domain_name : string)
    (request_parameters body_data : string) (t : datetime) : list SigV4.locals :=
  [ SigV4.delete_locals w access_key secret_key session_token region endpoint
                        domain_name t;
    SigV4.get_locals w access_key secret_key session_token region endpoint
                     domain_name request_parameters t;
    SigV4.post_locals w access_key secret_key session_token region endpoint
                      domain_name body_data t ].

(** The callback [send_response] puts to the response URL. *)
Definition callback (context : WebsiteHelper.lambda_context)
    (url stack_id request_id logical_id status message : string)
  : WebsiteHelper.action :=
  WebsiteHelper.PutResponse url
    (WebsiteHelper.ResponseBody status
       ("See the details in CloudWatch Log Stream: "
          +:+ WebsiteHelper.log_stream_name context)
       (WebsiteHelper.log_stream_name context)
       stack_id request_id logical_id [("Message", message)]).

(** A computation that raises nothing outside [Exception]. *)
Definition only_exceptions {E A} (m : M E A) : Prop :=
  forall e, outcome m = inl e -> is_Exception e = true.

(** A Create event of CloudFormation, a Lambda context, and a world in
    which every environment variable is set, the manifest lists two files
    and the copy of the second one fails. *)
Definition sample_event : WebsiteHelper.cfn_event :=
  WebsiteHelper.CfnEvent
    (list_to_map
       [ ("RequestType", "Create"); ("StackId", "stack-1");
         ("RequestId", "request-1"); ("LogicalResourceId", "CopyWebSource");
         ("ResponseURL", "https://cloudformation.example.com/response") ])
    (Some (list_to_map
             [ ("WebsiteCodeBucket", "build-bucket");
               ("WebsiteCodePrefix", "amcufa/v3.0.0/website");
               ("DeploymentBucket", "website-bucket.s3.amazonaws.com") ])).

Definition sample_context : WebsiteHelper.lambda_context :=
  WebsiteHelper.Context "2026/11/04/[$LATEST]abcdef".

Definition failing_copy_world : WebsiteHelper.world :=
  WebsiteHelper.World
    (list_to_map
       [ ("UserPoolId", "pool"); ("AwsRegion", "us-east-1");
         ("PoolClientId", "client"); ("IdentityPoolId", "identity");
         ("DataBucketName", "data"); ("ArtifactBucketName", "artifact");
         ("EncryptionMode", "default") ])
    (inr ["index.html"; "runtimeConfig.json"])
    (fun _ _ _ key =>
       if String.eqb key "runtimeConfig.json" then inl "AccessDenied" else inr tt)
    (fun _ _ _ => inr tt)
    (fun _ => inr tt)
    (fun _ => inr tt)
    (fun _ _ => inr tt).

(** The same world with a response URL that refuses every callback. *)
Definition refused_callback_world : WebsiteHelper.world :=
  WebsiteHelper.World
    (WebsiteHelper.environ failing_copy_world)
    (WebsiteHelper.manifest failing_copy_world)
    (WebsiteHelper.s3_copy failing_copy_world)
    (WebsiteHelper.s3_put_object failing_copy_world)
    (WebsiteHelper.s3_put_bucket_logging failing_copy_world)
    (WebsiteHelper.s3_delete_objects failing_copy_world)
    (fun _ _ => inl "URLError").

(** The log lines among the events of a call. *)
Definition logs_of (tr : list SigV4.event) : list SigV4.event :=
  List.filter
    (fun e => match e with SigV4.Log _ _ => true | _ => false end) tr.

(** What a call does once it hands a request to [send_request]: the
    prologue, the two lines that announce the request, the request, and
    then either the exception of the transport or the three lines that
    report the response. *)
Definition dispatched (w : SigV4.world) (http_method request_url : string)
    (headers : SigV4.dict) (data : option string)
  : M SigV4.event SigV4.response :=
  let answer := SigV4.requests w http_method request_url headers data in
  (match answer with
   | inl what => inl (RequestException what)
   | inr r => inr r
   end,
   prologue w
     ++ [ SigV4.Log SigV4.INFO
            (LF +:+ "BEGIN REQUEST+++++++++++++++++++++++++++++++++++");
          SigV4.Log SigV4.INFO ("Request URL = " +:+ request_url);
          SigV4.Request http_method request_url headers data ]
     ++ match answer with
        | inl _ => []
        | inr r =>
            [ SigV4.Log SigV4.INFO
                (LF +:+ "RESPONSE+++++++++++++++++++++++++++++++++++");
              SigV4.Log SigV4.INFO
                ("Response code: " +:+ pretty (SigV4.status_code r) +:+ LF);
              SigV4.Log SigV4.INFO (SigV4.text r) ]
        end).

(** The characters of a string. *)
Definition chars (s : string) : list ascii := list_ascii_of_string s.

(** Worlds in which STS refuses the role, and in which the region is
    not set. *)
Definition sts_down_world : SigV4.world :=
  SigV4.World ∅ sample_endpoint "arn:aws:iam::123456789012:role/amc-api"
    "amcufa" "v3.0.0" (inl "AccessDenied") (Datetime 2015 8 30 12 36 0)
    (fun _ _ _ _ => inr (SigV4.Response 200 "{}")).

Definition no_region_world : SigV4.world :=
  SigV4.World ∅ "api.example.com" "arn:aws:iam::123456789012:role/amc-api"
    "amcufa" "v3.0.0" (inr (None, None, "token")) (Datetime 2015 8 30 12 36 0)
    (fun _ _ _ _ => inr (SigV4.Response 200 "{}")).

(** The status and message of each callback among the actions of a run. *)
Definition callbacks_of (tr : list WebsiteHelper.action)
  : list (string * WebsiteHelper.dict) :=
  omap (fun a => match a with
                 | WebsiteHelper.PutResponse _ body =>
                     Some (WebsiteHelper.Status body, WebsiteHelper.Data body)
                 | _ => None
                 end) tr.


(** The keys of an event that [send_response] reads, in its order. *)
Definition response_fields : list string :=
  [ "StackId"; "RequestId"; "LogicalResourceId"; "ResponseURL" ].

(** What the loop of [copy_source] leaves for the manifest keys it gets
    through: one copy per key and, for runtimeConfig.json, the upload of
    the new variables followed by [after_put], the actions of
    [write_to_s3] after its upload. *)
Definition copied (source_bucket source_key website_bucket : string)
    (new_variables : WebsiteHelper.dict)
    (after_put : list WebsiteHelper.action) (keys : list string)
  : list WebsiteHelper.action :=
  flat_map
    (fun key =>
       WebsiteHelper.Copy source_bucket (source_key +:+ "/" +:+ key)
                          website_bucket key
       :: (if String.eqb key "runtimeConfig.json"
           then WebsiteHelper.PutObject website_bucket key new_variables
                :: after_put
           else []))
    keys.

(** The variables [copy_source] uploads, from the environment values. *)
Definition new_variables_of
    (user_pool_id region client_id identity_id data_bucket_name
     artifact_bucket_name encryption_mode : string) : WebsiteHelper.dict :=
  [ ("AWS_REGION", region);
    ("USER_POOL_ID", user_pool_id);
    ("USER_POOL_CLIENT_ID", client_id);
    ("IDENTITY_POOL_ID", identity_id);
    ("DATA_BUCKET_NAME", data_bucket_name);
    ("ARTIFACT_BUCKET_NAME", artifact_bucket_name);
    ("ENCRYPTION_MODE", encryption_mode) ].

(** The DeploymentBucket property of an event, if it has one. *)
Definition deployment_bucket_of (event : WebsiteHelper.cfn_event)
  : option string :=
  match WebsiteHelper.ResourceProperties event with
  | Some props => props !! "DeploymentBucket"
  | None => None
  end.


Definition full_world (put_answer delete_answer : string + unit)
  : WebsiteHelper.world :=
  WebsiteHelper.World
    (WebsiteHelper.environ failing_copy_world)
    (inr ["index.html"; "runtimeConfig.json"; "app.js"])
    (fun _ _ _ _ => inr tt) (fun _ _ _ => put_answer)
    (fun _ => inr tt) (fun _ => delete_answer) (fun _ _ => inr tt).

(** The sample event with another request type, and with none. *)
Definition event_of_type (request_type : option string)
  : WebsiteHelper.cfn_event :=
  WebsiteHelper.CfnEvent
    (match request_type with
     | Some rt => <["RequestType" := rt]> (WebsiteHelper.fields sample_event)
     | None => delete "RequestType" (WebsiteHelper.fields sample_event)
     end)
    (WebsiteHelper.ResourceProperties sample_event).

(** A world whose manifest file cannot be read. *)
Definition no_manifest_world : WebsiteHelper.world :=
  WebsiteHelper.World
    (WebsiteHelper.environ failing_copy_world)
    (inl "No such file or directory")
    (fun _ _ _ _ => inr tt) (fun _ _ _ => inr tt)
    (fun _ => inr tt) (fun _ => inr tt) (fun _ _ => inr tt).

(** The properties of an event that [copy_source] reads, in its order. *)
Definition property_names : list string :=
  [ "WebsiteCodeBucket"; "WebsiteCodePrefix"; "DeploymentBucket" ].

(** An event lacks a property [copy_source] needs. *)
Definition lacks_a_property (event : WebsiteHelper.cfn_event) : Prop :=
  match WebsiteHelper.ResourceProperties event with
  | None => True
  | Some props => Exists (fun name => props !! name = None) property_names
  end.


(** A world with every environment variable set in which, of three
    manifest keys, the copy of the second fails. *)
Definition failing_middle_world : WebsiteHelper.world :=
  WebsiteHelper.World
    (WebsiteHelper.environ failing_copy_world)
    (inr ["index.html"; "runtimeConfig.json"; "app.js"])
    (WebsiteHelper.s3_copy failing_copy_world)
    (fun _ _ _ => inr tt)
    (fun _ => inr tt) (fun _ => inr tt) (fun _ _ => inr tt).

(** * Properties *)

(** ** The primitives *)

(** Published test vectors: FIPS 180-4 and RFC 4231. *)

Example sha256_empty :
  sha256_hexdigest (encode_utf8 "")
  = "e3b0c44298fc1c149afbf4c8996fb92427ae41e4649b934ca495991b7852b855".
Proof. vm_compute. reflexivity. Qed.

Example sha256_abc :
  sha256_hexdigest (encode_utf8 "abc")
  = "ba7816bf8f01cfea414140de5dae2223b00361a396177a9cb410ff61f20015ad".
Proof. vm_compute. reflexivity. Qed.

Example sha256_two_blocks :
  sha256_hexdigest
    (encode_utf8 "abcdbcdecdefdefgefghfghighijhijkijkljklmklmnlmnomnopnopq")
  = "248d6a61d20638b8e5c026930c3e6039a33ce45964ff2167f6ecedd419db06c1".
Proof. vm_compute. reflexivity. Qed.

Example hmac_rfc4231_case2 :
  HMAC.hexdigest (encode_utf8 "Jefe") (encode_utf8 "what do ya want for nothing?")
  = "5bdcc146bf60754e6a042426089575c75a003f089d2739839dec58b964ec3843".
Proof. vm_compute. reflexivity. Qed.

Example strftime_amzdate :
  strftime (Datetime 2015 8 30 12 36 0) "%Y%m%dT%H%M%SZ" = "20150830T123600Z".
Proof. vm_compute. reflexivity. Qed.

Example split_endpoint :
  split "/" "https://api.example.com/prod/workflows"
  = ["https:"; ""; "api.example.com"; "prod"; "workflows"].
Proof. reflexivity. Qed.


Lemma sha256_digest_length (msg : list byte) :
  length (SHA256.digest msg) = 32%nat.
Proof. reflexivity. Qed.

Lemma hmac_digest_length (key msg : list byte) :
  length (HMAC.digest key msg) = 32%nat.
Proof. apply sha256_digest_length. Qed.

Lemma hex_length (l : list byte) : String.length (hex l) = (2 * length l)%nat.
Proof. induction l as [|b l IH]; simpl; [reflexivity | rewrite IH; lia]. Qed.

(** The characters of a lower-case hexadecimal numeral. *)
Definition is_lower_hex (c : ascii) : bool :=
  existsb (Ascii.eqb c) (list_ascii_of_string "0123456789abcdef").

Lemma hex_digit_lower (n : Z) : is_lower_hex (hex_digit n) = true.
Proof.
  unfold hex_digit. generalize (Z.to_nat n) as k. intros k.
  do 16 (destruct k as [|k]; [reflexivity|]). reflexivity.
Qed.

Lemma hex_lower (l : list byte) :
  forallb is_lower_hex (list_ascii_of_string (hex l)) = true.
Proof.
  induction l as [|b l IH]; simpl; [reflexivity|].
  rewrite !hex_digit_lower. exact IH.
Qed.

Lemma encode_utf8_length (s : string) :
  length (encode_utf8 s) = String.length s.
Proof.
  unfold encode_utf8, list_byte_of_string.
  rewrite length_map. induction s as [|c s IH]; simpl; congruence.
Qed.

Lemma split_cons (sep : ascii) (s : string) :
  exists h tl, split sep s = h :: tl.
Proof.
  induction s as [|c s [h [tl IH]]]; simpl; [eauto|].
  destruct (Ascii.eqb c sep); [eauto|]. rewrite IH. eauto.
Qed.

(** The signing keys of the worked examples in the AWS documentation. *)
Example signature_key_aws_20120215 :
  hex (SigV4.get_signature_key "wJalrXUtnFEMI/K7MDENG+bPxRfiCYEXAMPLEKEY"
                               "20120215" "us-east-1" "iam")
  = "f4780e2d9f65fa895f9c67b32ce1baf0b0d8a43505a000a1a9e090d414db404d".
Proof. vm_compute. reflexivity. Qed.

Example signature_key_aws_20150830 :
  hex (SigV4.get_signature_key "wJalrXUtnFEMI/K7MDENG+bPxRfiCYEXAMPLEKEY"
                               "20150830" "us-east-1" "iam")
  = "c4afb1cc5771d871763a393e44b703571b55cc28424d1a5e86da6ed3c154a4b9".
Proof. vm_compute. reflexivity. Qed.

(** ** Signing key derivation *)

(** C1: for every secret key, date stamp, region and service name,
    [get_signature_key] returns the result of the four-step HMAC-SHA256
    chain kDate, kRegion, kService, kSigning, keyed first by
    ["AWS4" + secretKey] and then by each previous output; the value is
    the raw 32-byte digest of the last step, not its 64-character hex
    encoding. *)
Theorem get_signature_key_is_hmac_chain
    (key date_stamp region_name service_name : string) :
  let kDate :=
    HMAC.digest (encode_utf8 ("AWS4" +:+ key)) (encode_utf8 date_stamp) in
  let kRegion := HMAC.digest kDate (encode_utf8 region_name) in
  let kService := HMAC.digest kRegion (encode_utf8 service_name) in
  let kSigning := HMAC.digest kService (encode_utf8 "aws4_request") in
  SigV4.get_signature_key key date_stamp region_name service_name = kSigning
  /\ SigV4.get_signature_key key date_stamp region_name service_name
     = deriveKey key date_stamp region_name service_name
  /\ length (SigV4.get_signature_key key date_stamp region_name service_name)
     = 32%nat
  /\ SigV4.get_signature_key key date_stamp region_name service_name
     <> encode_utf8 (hex kSigning).
Proof.
  intros kDate kRegion kService kSigning.
  assert (Hk : SigV4.get_signature_key key date_stamp region_name service_name
               = kSigning) by reflexivity.
  repeat split; try reflexivity.
  rewrite Hk. intros Heq.
  apply (f_equal (@length byte)) in Heq.
  rewrite encode_utf8_length, hex_length in Heq.
  unfold kSigning in Heq. rewrite hmac_digest_length in Heq. discriminate.
Qed.

(** ** What a call does, case by case *)

Lemma append_assoc (a b c : string) : (a +:+ b) +:+ c = a +:+ b +:+ c.
Proof.
  induction a as [|x a IH]; [reflexivity|].
  change (String x ((a +:+ b) +:+ c) = String x (a +:+ b +:+ c)).
  now rewrite IH.
Qed.

Lemma requests_of_app (a b : list SigV4.event) :
  requests_of (a ++ b) = requests_of a ++ requests_of b.
Proof. apply List.filter_app. Qed.

Lemma sts_calls_of_app (a b : list SigV4.event) :
  sts_calls_of (a ++ b) = sts_calls_of a ++ sts_calls_of b.
Proof. apply List.filter_app. Qed.

Lemma send_request_events (w : SigV4.world) (url : string) (h : SigV4.dict)
    (m : string) (data : option string) :
  requests_of (events (SigV4.send_request w url h m data))
  = [SigV4.Request m url h (if SigV4.truthy data then data else None)]
  /\ sts_calls_of (events (SigV4.send_request w url h m data)) = [].
Proof.
  unfold SigV4.send_request, SigV4.call_requests.
  destruct (SigV4.truthy data);
    [destruct (SigV4.requests w m url h data)
    |destruct (SigV4.requests w m url h None)]; split; reflexivity.
Qed.

(** Case analysis on what the world answers, in the order the calls
    consult it. *)
Ltac by_cases w path :=
  unfold SigV4.get_amc_api_tokens, getitem, index;
  destruct (SigV4.assume_role w) as [?|[[[?|] [?|]] ?]];
  try reflexivity;
  (destruct (SigV4.environ w !! "AWS_REGION"); [|reflexivity]);
  (destruct (split "/" (SigV4.AMC_ENDPOINT w +:+ path) !! 2%nat);
   [|reflexivity]);
  try reflexivity;
  cbn [mbind M_bind bind]; simpl;
  match goal with
  | |- context [SigV4.send_request ?a ?b ?c ?d ?e] =>
      destruct (SigV4.send_request a b c d e)
  end;
  reflexivity.

Lemma delete_cases (w : SigV4.world) (path : string) :
  SigV4.delete w path =
  let endpoint := SigV4.AMC_ENDPOINT w +:+ path in
  match SigV4.assume_role w with
  | inl what => (inl (ClientError what), prologue w)
  | inr (access_key, secret_key, session_token) =>
      match SigV4.environ w !! "AWS_REGION" with
      | None => (inl (KeyError "AWS_REGION"), prologue w)
      | Some region =>
          match split "/" endpoint !! 2%nat with
          | None => (inl IndexError, prologue w)
          | Some domain_name =>
              match access_key, secret_key with
              | Some access_key, Some secret_key =>
                  let l := SigV4.delete_locals w access_key secret_key
                             session_token region endpoint domain_name
                             (SigV4.utcnow w) in
                  let '(r, tr) :=
                    SigV4.send_request w endpoint (SigV4.headers l) "delete" None in
                  (r, prologue w ++ tr)
              | _, _ =>
                  (inl SystemExit,
                   prologue w ++ [SigV4.Log SigV4.ERROR SigV4.NO_ACCESS_KEY_ERROR])
              end
          end
      end
  end.
Proof. unfold SigV4.delete. by_cases w path. Qed.

Lemma get_cases (w : SigV4.world) (path request_parameters : string) :
  SigV4.get w path request_parameters =
  let endpoint := SigV4.AMC_ENDPOINT w +:+ path in
  match SigV4.assume_role w with
  | inl what => (inl (ClientError what), prologue w)
  | inr (access_key, secret_key, session_token) =>
      match SigV4.environ w !! "AWS_REGION" with
      | None => (inl (KeyError "AWS_REGION"), prologue w)
      | Some region =>
          match split "/" endpoint !! 2%nat with
          | None => (inl IndexError, prologue w)
          | Some domain_name =>
              match access_key, secret_key with
              | Some access_key, Some secret_key =>
                  let l := SigV4.get_locals w access_key secret_key
                             session_token region endpoint domain_name
                             request_parameters (SigV4.utcnow w) in
                  let '(r, tr) :=
                    SigV4.send_request w
                      (endpoint +:+ "?" +:+ SigV4.canonical_querystring l)
                      (SigV4.headers l) "get" None in
                  (r, prologue w ++ tr)
              | _, _ =>
                  (inl SystemExit,
                   prologue w ++ [SigV4.Log SigV4.ERROR "NO_ACCESS_KEY_ERROR"])
              end
          end
      end
  end.
Proof. unfold SigV4.get. by_cases w path. Qed.

Lemma post_cases (w : SigV4.world) (path body_data : string) :
  SigV4.post w path body_data =
  let endpoint := SigV4.AMC_ENDPOINT w +:+ path in
  match SigV4.assume_role w with
  | inl what => (inl (ClientError what), prologue w)
  | inr (access_key, secret_key, session_token) =>
      match SigV4.environ w !! "AWS_REGION" with
      | None => (inl (KeyError "AWS_REGION"), prologue w)
      | Some region =>
          match split "/" endpoint !! 2%nat with
          | None => (inl IndexError, prologue w)
          | Some domain_name =>
              match access_key, secret_key with
              | Some access_key, Some secret_key =>
                  let l := SigV4.post_locals w access_key secret_key
                             session_token region endpoint domain_name
                             body_data (SigV4.utcnow w) in
                  let '(r, tr) :=
                    SigV4.send_request w endpoint (SigV4.headers l) "post"
                                       (Some body_data) in
                  (r, prologue w ++ tr)
              | _, _ =>
                  (inl SystemExit,
                   prologue w ++ [SigV4.Log SigV4.ERROR "NO_ACCESS_KEY_ERROR"])
              end
          end
      end
  end.
Proof. unfold SigV4.post. by_cases w path. Qed.

(** ** The canonical request *)

Ltac unfold_locals :=
  cbn [SigV4.delete_locals SigV4.get_locals SigV4.post_locals
       SigV4.method SigV4.amzdate SigV4.datestamp SigV4.canonical_uri
       SigV4.canonical_querystring SigV4.canonical_headers
       SigV4.signed_headers SigV4.payload_hash SigV4.canonical_request
       SigV4.algorithm SigV4.credential_scope SigV4.string_to_sign
       SigV4.signing_key SigV4.signature SigV4.authorization_header
       SigV4.headers].

Ltac each_call :=
  unfold all_locals;
  once (constructor; [|constructor; [|constructor; [|constructor]]]);
  unfold_locals.

(** C2: for every domain name, amzdate and session token the canonical
    headers block is exactly
    "host:<domain>\nx-amz-date:<amzdate>\nx-amz-security-token:<token>\n":
    one line per signed header, the names lower-cased and in strictly
    ascending code-point order, each line ended by one line feed; and in
    the canonical request of every call the block is followed by exactly
    one line feed (one blank line) and then the signed-headers field,
    which does not itself start with a line feed. *)
Theorem canonical_headers_block
    (w : SigV4.world)
    (access_key secret_key session_token region endpoint domain_name : string)
    (request_parameters body_data : string) (t : datetime) :
  let amzdate := strftime t "%Y%m%dT%H%M%SZ" in
  let block :=
    "host:" +:+ domain_name +:+ LF +:+ "x-amz-date:" +:+ amzdate +:+ LF
      +:+ "x-amz-security-token:" +:+ session_token +:+ LF in
  (forall domain amz token : string,
      SigV4.get_canonical_headers domain amz token
      = "host:" +:+ domain +:+ LF +:+ "x-amz-date:" +:+ amz +:+ LF
          +:+ "x-amz-security-token:" +:+ token +:+ LF
      /\ SigV4.get_canonical_headers domain amz token
         = String.concat ""
             (zip_with header_line signed_header_names [domain; amz; token]))
  /\ forallb lower_cased signed_header_names = true
  /\ strictly_ascending signed_header_names = true
  /\ Forall
       (fun l =>
          SigV4.canonical_headers l = block
          /\ SigV4.signed_headers l = join ";" signed_header_names
          /\ SigV4.canonical_request l
             = (SigV4.method l +:+ LF +:+ SigV4.canonical_uri l +:+ LF
                  +:+ SigV4.canonical_querystring l +:+ LF)
                 +:+ block +:+ LF +:+ SigV4.signed_headers l +:+ LF
                 +:+ SigV4.payload_hash l)
       (all_locals w access_key secret_key session_token region endpoint
                   domain_name request_parameters body_data t)
  /\ String.get 0 (join ";" signed_header_names) = Some "h"%char.
Proof.
  intros amzdate block.
  split.
  { intros domain amz token. split; [reflexivity|].
    unfold SigV4.get_canonical_headers, header_line.
    cbn [signed_header_names zip_with String.concat].
    rewrite !append_assoc. reflexivity. }
  split; [reflexivity|]. split; [reflexivity|]. split; [|reflexivity].
  each_call; fold amzdate; (split; [reflexivity|]); (split; [reflexivity|]);
    rewrite !append_assoc; reflexivity.
Qed.

(** C3: the payload hash placed in the canonical request is, for every
    GET and DELETE call, the SHA-256 hex digest of the empty byte sequence,
    e3b0c442...b855; for every POST call with body b it is the SHA-256 hex
    digest of the UTF-8 bytes of b.  The hash is the last field of the
    canonical request. *)
Theorem payload_hash_of_call
    (w : SigV4.world)
    (access_key secret_key session_token region endpoint domain_name : string)
    (request_parameters body_data : string) (t : datetime) :
  let empty_hash :=
    "e3b0c44298fc1c149afbf4c8996fb92427ae41e4649b934ca495991b7852b855" in
  hex (SHA256.digest []) = empty_hash
  /\ SigV4.payload_hash
       (SigV4.get_locals w access_key secret_key session_token region endpoint
                         domain_name request_parameters t) = empty_hash
  /\ SigV4.payload_hash
       (SigV4.delete_locals w access_key secret_key session_token region
                            endpoint domain_name t) = empty_hash
  /\ SigV4.payload_hash
       (SigV4.post_locals w access_key secret_key session_token region endpoint
                          domain_name body_data t)
     = hex (SHA256.digest (encode_utf8 body_data))
  /\ Forall
       (fun l =>
          exists fields,
            SigV4.canonical_request l = fields +:+ LF +:+ SigV4.payload_hash l)
       (all_locals w access_key secret_key session_token region endpoint
                   domain_name request_parameters body_data t).
Proof.
  intros empty_hash.
  assert (He : hex (SHA256.digest []) = empty_hash) by exact sha256_empty.
  split; [exact He|]. split; [exact He|]. split; [exact He|].
  split; [reflexivity|].
  each_call;
    match goal with
    | |- exists fields,
          ?m +:+ LF +:+ ?u +:+ LF +:+ ?q +:+ LF +:+ ?h +:+ LF +:+ ?s +:+ LF +:+ ?p
          = _ =>
        exists (m +:+ LF +:+ u +:+ LF +:+ q +:+ LF +:+ h +:+ LF +:+ s)
    end;
    rewrite !append_assoc; reflexivity.
Qed.

(** ** String to sign, signature, authorization header *)

(** C4: for every signing call the string to sign is
    "AWS4-HMAC-SHA256" + "\n" + amzDate + "\n" + credentialScope + "\n" +
    hex(SHA256(canonicalRequest)), the credential scope is dateStamp,
    region, "execute-api" and "aws4_request" joined by "/", and the
    signature is the lower-case hex HMAC-SHA256 of that string under the
    derived signing key: 64 characters out of 0-9 and a-f. *)
Theorem string_to_sign_and_signature
    (w : SigV4.world)
    (access_key secret_key session_token region endpoint domain_name : string)
    (request_parameters body_data : string) (t : datetime) :
  let amzDate := strftime t "%Y%m%dT%H%M%SZ" in
  let dateStamp := strftime t "%Y%m%d" in
  let credentialScope :=
    join "/" [dateStamp; region; "execute-api"; "aws4_request"] in
  Forall
    (fun l =>
       SigV4.credential_scope l = credentialScope
       /\ SigV4.string_to_sign l
          = "AWS4-HMAC-SHA256" +:+ LF +:+ amzDate +:+ LF +:+ credentialScope
              +:+ LF +:+ hex (SHA256.digest
                                (encode_utf8 (SigV4.canonical_request l)))
       /\ SigV4.signature l
          = hex (HMAC.digest
                   (SigV4.get_signature_key secret_key dateStamp region
                                            "execute-api")
                   (encode_utf8 (SigV4.string_to_sign l)))
       /\ String.length (SigV4.signature l) = 64%nat
       /\ forallb is_lower_hex (list_ascii_of_string (SigV4.signature l)) = true)
    (all_locals w access_key secret_key session_token region endpoint
                domain_name request_parameters body_data t).
Proof.
  intros amzDate dateStamp credentialScope.
  each_call; (split; [reflexivity|]); (split; [reflexivity|]);
    (split; [reflexivity|]); unfold HMAC.hexdigest; split.
  all: try apply hex_lower.
  all: rewrite hex_length, hmac_digest_length; reflexivity.
Qed.

(** The one request a call that reaches the signing code dispatches. *)
Lemma delete_dispatch (w : SigV4.world) (path : string)
    (access_key secret_key session_token region domain_name : string) :
  reaches_signing w path access_key secret_key session_token region domain_name ->
  let endpoint := SigV4.AMC_ENDPOINT w +:+ path in
  let l := SigV4.delete_locals w access_key secret_key session_token region
                               endpoint domain_name (SigV4.utcnow w) in
  requests_of (events (SigV4.delete w path))
  = [SigV4.Request "delete" endpoint (SigV4.headers l) None].
Proof.
  intros (Hsts & Hregion & Hdomain) endpoint l.
  rewrite delete_cases. cbn zeta. rewrite Hsts, Hregion, Hdomain.
  fold endpoint. fold l.
  pose proof (send_request_events w endpoint (SigV4.headers l) "delete" None)
    as [Hreq _].
  destruct (SigV4.send_request w endpoint (SigV4.headers l) "delete" None)
    as [r tr].
  unfold events in *. cbn [snd] in *.
  rewrite requests_of_app, Hreq. reflexivity.
Qed.

Lemma get_dispatch (w : SigV4.world) (path request_parameters : string)
    (access_key secret_key session_token region domain_name : string) :
  reaches_signing w path access_key secret_key session_token region domain_name ->
  let endpoint := SigV4.AMC_ENDPOINT w +:+ path in
  let l := SigV4.get_locals w access_key secret_key session_token region
             endpoint domain_name request_parameters (SigV4.utcnow w) in
  requests_of (events (SigV4.get w path request_parameters))
  = [SigV4.Request "get" (endpoint +:+ "?" +:+ request_parameters)
                   (SigV4.headers l) None].
Proof.
  intros (Hsts & Hregion & Hdomain) endpoint l.
  rewrite get_cases. cbn zeta. rewrite Hsts, Hregion, Hdomain.
  fold endpoint. fold l.
  change (SigV4.canonical_querystring l) with request_parameters.
  pose proof (send_request_events w (endpoint +:+ "?" +:+ request_parameters)
                (SigV4.headers l) "get" None) as [Hreq _].
  destruct (SigV4.send_request w (endpoint +:+ "?" +:+ request_parameters)
              (SigV4.headers l) "get" None) as [r tr].
  unfold events in *. cbn [snd] in *.
  rewrite requests_of_app, Hreq. reflexivity.
Qed.

Lemma post_dispatch (w : SigV4.world) (path body_data : string)
    (access_key secret_key session_token region domain_name : string) :
  reaches_signing w path access_key secret_key session_token region domain_name ->
  let endpoint := SigV4.AMC_ENDPOINT w +:+ path in
  let l := SigV4.post_locals w access_key secret_key session_token region
             endpoint domain_name body_data (SigV4.utcnow w) in
  requests_of (events (SigV4.post w path body_data))
  = [SigV4.Request "post" endpoint (SigV4.headers l)
                   (if String.eqb body_data "" then None else Some body_data)].
Proof.
  intros (Hsts & Hregion & Hdomain) endpoint l.
  rewrite post_cases. cbn zeta. rewrite Hsts, Hregion, Hdomain.
  fold endpoint. fold l.
  pose proof (send_request_events w endpoint (SigV4.headers l) "post"
                (Some body_data)) as [Hreq _].
  destruct (SigV4.send_request w endpoint (SigV4.headers l) "post"
              (Some body_data)) as [r tr].
  unfold events in *. cbn [snd] in *.
  rewrite requests_of_app, Hreq. destruct body_data; reflexivity.
Qed.

Lemma sample_reaches_signing :
  reaches_signing (sample_world sample_endpoint sample_credentials) "/workflows"
    "AKIDEXAMPLE" "wJalrXUtnFEMI/K7MDENG+bPxRfiCYEXAMPLEKEY" "token"
    "us-east-1" "api.example.com".
Proof. repeat split. Defined.

(** C5: for every signing call the Authorization header is
    "<algorithm> Credential=<access_key>/<scope>,
    SignedHeaders=<signed_headers>, Signature=<signature>" with the
    constant "host;x-amz-date;x-amz-security-token" as signed headers, and
    the headers sent with the request are exactly Authorization,
    x-amz-date, x-amz-security-token and the two static headers that name
    the solution and its version. *)
Theorem authorization_header_and_header_set
    (w : SigV4.world) (path request_parameters body_data : string)
    (access_key secret_key session_token region domain_name : string) :
  reaches_signing w path access_key secret_key session_token region domain_name ->
  let endpoint := SigV4.AMC_ENDPOINT w +:+ path in
  let sent (call : M SigV4.event SigV4.response) : list SigV4.dict :=
    omap (fun e => match e with
                   | SigV4.Request _ _ h _ => Some h
                   | _ => None
                   end) (events call) in
  Forall2
    (fun l call =>
       SigV4.authorization_header l
       = SigV4.algorithm l +:+ " Credential=" +:+ access_key +:+ "/"
           +:+ SigV4.credential_scope l +:+ ", SignedHeaders="
           +:+ "host;x-amz-date;x-amz-security-token" +:+ ", Signature="
           +:+ SigV4.signature l
       /\ SigV4.algorithm l = "AWS4-HMAC-SHA256"
       /\ SigV4.headers l
          = [ ("Authorization", SigV4.authorization_header l);
              ("x-amz-date", SigV4.amzdate l);
              ("x-amz-security-token", session_token);
              ("x-amzn-service-name", SigV4.SOLUTION_NAME w);
              ("x-amzn-service-version", SigV4.SOLUTION_VERSION w) ]
       /\ sent call = [SigV4.headers l])
    (all_locals w access_key secret_key session_token region endpoint
                domain_name request_parameters body_data (SigV4.utcnow w))
    [ SigV4.delete w path;
      SigV4.get w path request_parameters;
      SigV4.post w path body_data ].
Proof.
  intros Hready endpoint sent.
  assert (Hsent : forall call m u h d,
             requests_of (events call) = [SigV4.Request m u h d] ->
             sent call = [h]).
  { intros call m u h d. unfold sent. generalize (events call) as tr.
    intros tr. revert m u h d.
    assert (Hmap : forall tr : list SigV4.event,
               omap (fun e => match e with
                              | SigV4.Request _ _ h _ => Some h
                              | _ => None
                              end) tr
               = omap (fun e => match e with
                                | SigV4.Request _ _ h _ => Some h
                                | _ => None
                                end) (requests_of tr)).
    { induction tr0 as [|e tr0 IH]; [reflexivity|].
      destruct e; cbn; rewrite ?IH; reflexivity. }
    intros m u h d H. rewrite Hmap, H. reflexivity. }
  unfold all_locals.
  once (constructor; [|constructor; [|constructor; [|constructor]]]);
    (split; [reflexivity|]); (split; [reflexivity|]); (split; [reflexivity|]).
  - exact (Hsent (SigV4.delete w path) _ _ _ _
                 (delete_dispatch _ _ _ _ _ _ _ Hready)).
  - exact (Hsent (SigV4.get w path request_parameters) _ _ _ _
                 (get_dispatch _ _ _ _ _ _ _ _ Hready)).
  - exact (Hsent (SigV4.post w path body_data) _ _ _ _
                 (post_dispatch _ _ _ _ _ _ _ _ Hready)).
Qed.

Lemma authorization_header_and_header_set_witness :
  Forall2 (fun l call => SigV4.algorithm l = "AWS4-HMAC-SHA256")
    (all_locals (sample_world sample_endpoint sample_credentials)
       "AKIDEXAMPLE" "wJalrXUtnFEMI/K7MDENG+bPxRfiCYEXAMPLEKEY" "token"
       "us-east-1" "https://api.example.com/prod/workflows" "api.example.com"
       "a=1" "{}" (Datetime 2015 8 30 12 36 0))
    [ SigV4.delete (sample_world sample_endpoint sample_credentials) "/workflows";
      SigV4.get (sample_world sample_endpoint sample_credentials) "/workflows" "a=1";
      SigV4.post (sample_world sample_endpoint sample_credentials) "/workflows" "{}" ].
Proof.
  eapply Forall2_impl.
  - exact (authorization_header_and_header_set
             (sample_world sample_endpoint sample_credentials)
             "/workflows" "a=1" "{}" _ _ _ _ _ sample_reaches_signing).
  - intros l call (_ & H & _). exact H.
Defined.

(** C6: for every GET call the canonical query string is the
    caller-supplied request_parameters and the dispatched URL is
    endpoint + "?" + that string; for every POST and DELETE call the
    canonical query string is empty and the dispatched URL is the endpoint
    unmodified; a POST body, if there is one, is sent as it is, and GET and
    DELETE send none. *)
Theorem query_string_and_dispatched_url
    (w : SigV4.world) (path request_parameters body_data : string)
    (access_key secret_key session_token region domain_name : string) :
  reaches_signing w path access_key secret_key session_token region domain_name ->
  let endpoint := SigV4.AMC_ENDPOINT w +:+ path in
  let t := SigV4.utcnow w in
  let lget := SigV4.get_locals w access_key secret_key session_token region
                endpoint domain_name request_parameters t in
  let lpost := SigV4.post_locals w access_key secret_key session_token region
                 endpoint domain_name body_data t in
  let ldelete := SigV4.delete_locals w access_key secret_key session_token
                   region endpoint domain_name t in
  (SigV4.canonical_querystring lget = request_parameters
   /\ requests_of (events (SigV4.get w path request_parameters))
      = [SigV4.Request "get" (endpoint +:+ "?" +:+ request_parameters)
                       (SigV4.headers lget) None])
  /\ (SigV4.canonical_querystring lpost = ""
      /\ requests_of (events (SigV4.post w path body_data))
         = [SigV4.Request "post" endpoint (SigV4.headers lpost)
              (if String.eqb body_data "" then None else Some body_data)])
  /\ (SigV4.canonical_querystring ldelete = ""
      /\ requests_of (events (SigV4.delete w path))
         = [SigV4.Request "delete" endpoint (SigV4.headers ldelete) None]).
Proof.
  intros Hready endpoint t lget lpost ldelete.
  split; [|split]; (split; [reflexivity|]).
  - exact (get_dispatch w path request_parameters _ _ _ _ _ Hready).
  - exact (post_dispatch w path body_data _ _ _ _ _ Hready).
  - exact (delete_dispatch w path _ _ _ _ _ Hready).
Qed.

Lemma query_string_and_dispatched_url_witness :
  exists h,
    requests_of
      (events (SigV4.get (sample_world sample_endpoint sample_credentials)
                         "/workflows" "a=1"))
    = [SigV4.Request "get" "https://api.example.com/prod/workflows?a=1" h None].
Proof.
  eexists.
  exact (proj2 (proj1 (query_string_and_dispatched_url
                         (sample_world sample_endpoint sample_credentials)
                         "/workflows" "a=1" "{}" _ _ _ _ _
                         sample_reaches_signing))).
Defined.

(** ** Preconditions *)

(** A call that reaches the signing code over a transport that answers
    returns the answer, after one request and no error line. *)
Lemma send_request_returns (w : SigV4.world) (url : string) (h : SigV4.dict)
    (m : string) (data : option string) (r : SigV4.response) :
  (forall m u h d, SigV4.requests w m u h d = inr r) ->
  outcome (SigV4.send_request w url h m data) = inr r
  /\ error_logs_of (events (SigV4.send_request w url h m data)) = [].
Proof.
  intros Hr. unfold SigV4.send_request, SigV4.call_requests.
  destruct (SigV4.truthy data); rewrite Hr; split; reflexivity.
Qed.

Lemma signing_call_returns (w : SigV4.world)
    (path request_parameters body_data : string)
    (access_key secret_key session_token region domain_name : string)
    (r : SigV4.response) :
  reaches_signing w path access_key secret_key session_token region domain_name ->
  (forall m u h d, SigV4.requests w m u h d = inr r) ->
  Forall
    (fun call =>
       outcome call = inr r
       /\ length (requests_of (events call)) = 1%nat
       /\ error_logs_of (events call) = [])
    [ SigV4.delete w path;
      SigV4.get w path request_parameters;
      SigV4.post w path body_data ].
Proof.
  intros Hready Hr.
  pose proof (delete_dispatch _ _ _ _ _ _ _ Hready) as Hd.
  pose proof (get_dispatch _ _ request_parameters _ _ _ _ _ Hready) as Hg.
  pose proof (post_dispatch _ _ body_data _ _ _ _ _ Hready) as Hp.
  cbn zeta in Hd, Hg, Hp.
  once (constructor; [|constructor; [|constructor; [|constructor]]]);
    (split; [|split; [first [rewrite Hd|rewrite Hg|rewrite Hp]; reflexivity|]]).
  all: destruct Hready as (Hsts & Hregion & Hdomain).
  all: first [rewrite delete_cases|rewrite get_cases|rewrite post_cases].
  all: cbn zeta; rewrite Hsts, Hregion, Hdomain.
  all: match goal with
       | |- context [SigV4.send_request ?a ?b ?c ?d ?e] =>
           pose proof (send_request_returns a b c d e r Hr) as [Ho He];
           destruct (SigV4.send_request a b c d e) as [o tr]
       end.
  all: unfold outcome, events in *; cbn [fst snd] in *.
  all: try exact Ho.
  all: unfold error_logs_of in *; rewrite List.filter_app, He; reflexivity.
Qed.

(** C7, as stated, fails: credentials that are present but empty are not
    rejected.  With the empty string as access key and as secret key,
    [delete], [get] and [post] log no error, sign, send one request and
    return its response. *)
Lemma empty_credentials_are_signed_and_sent :
  let w := sample_world sample_endpoint (Some "", Some "", "token") in
  SigV4.assume_role w = inr (Some "", Some "", "token")
  /\ Forall
       (fun call =>
          outcome call = inr (SigV4.Response 200 "{}")
          /\ length (requests_of (events call)) = 1%nat
          /\ error_logs_of (events call) = [])
       [ SigV4.delete w "/workflows";
         SigV4.get w "/workflows" "a=1";
         SigV4.post w "/workflows" "{}" ].
Proof.
  split; [reflexivity|].
  apply (signing_call_returns _ "/workflows" "a=1" "{}"
           "" "" "token" "us-east-1" "api.example.com").
  - repeat split.
  - reflexivity.
Qed.

(** C7, amended: a call to [delete], [get] or [post] for which STS returns
    no access key or no secret key ([None]) sends no request and raises.
    When the region is set and the endpoint has a host component, what it
    raises is [SystemExit], after one error line in the log, which for
    [delete] reads "No access key is available."; otherwise the call has
    already raised on the region or the endpoint. *)
Theorem missing_credentials_abort
    (w : SigV4.world) (path request_parameters body_data : string)
    (access_key secret_key : option string) (session_token : string) :
  SigV4.assume_role w = inr (access_key, secret_key, session_token) ->
  access_key = None \/ secret_key = None ->
  let reached :=
    is_Some (SigV4.environ w !! "AWS_REGION")
    /\ is_Some (split "/" (SigV4.AMC_ENDPOINT w +:+ path) !! 2%nat) in
  Forall
    (fun call : M SigV4.event SigV4.response =>
       requests_of (events call) = []
       /\ (exists e, outcome call = inl e)
       /\ (reached ->
           outcome call = inl SystemExit
           /\ exists msg, error_logs_of (events call)
                          = [SigV4.Log SigV4.ERROR msg]))
    [ SigV4.delete w path;
      SigV4.get w path request_parameters;
      SigV4.post w path body_data ]
  /\ (reached ->
      error_logs_of (events (SigV4.delete w path))
      = [SigV4.Log SigV4.ERROR "No access key is available."]).
Proof.
  intros Hsts Hnone reached. unfold reached.
  rewrite delete_cases, get_cases, post_cases. cbn zeta. rewrite Hsts.
  destruct (SigV4.environ w !! "AWS_REGION") as [region|];
    destruct (split "/" (SigV4.AMC_ENDPOINT w +:+ path) !! 2%nat) as [dom|].
  2-4: split;
    [once (constructor; [|constructor; [|constructor; [|constructor]]]);
     (split; [reflexivity|]); (split; [eexists; reflexivity|]) |];
    intros [[? ?] [? ?]]; discriminate.
  assert (Hcase : access_key = None \/ (exists a, access_key = Some a)
                                       /\ secret_key = None).
  { destruct access_key; [right|left; reflexivity].
    destruct Hnone as [?|?]; [discriminate|]. eauto. }
  destruct Hcase as [->|[[a ->] ->]];
    (split;
     [once (constructor; [|constructor; [|constructor; [|constructor]]]);
      (split; [reflexivity|]); (split; [eexists; reflexivity|]);
      intros _; (split; [reflexivity|eexists; reflexivity])
     |intros _; reflexivity]).
Qed.

Lemma missing_credentials_abort_witness :
  requests_of
    (events (SigV4.delete (sample_world sample_endpoint (None, Some "k", "token"))
                          "/workflows")) = [].
Proof.
  pose proof (missing_credentials_abort
                (sample_world sample_endpoint (None, Some "k", "token"))
                "/workflows" "a=1" "{}" None (Some "k") "token"
                eq_refl (or_introl eq_refl)) as [H _].
  apply Forall_inv in H. exact (proj1 H).
Defined.




(** ** The deployment helper *)

Section OnlyExceptions.

Context {E : Type}.

Lemma only_exceptions_ret {A} (a : A) : only_exceptions (ret a : M E A).
Proof. intros e H. discriminate. Qed.

Lemma only_exceptions_emit (ev : E) : only_exceptions (emit ev).
Proof. intros e H. discriminate. Qed.

Lemma only_exceptions_raise {A} (e : exn) :
  is_Exception e = true -> only_exceptions (raise e : M E A).
Proof. intros He e' H. injection H as <-. exact He. Qed.

Lemma only_exceptions_bind {A B} (m : M E A) (k : A -> M E B) :
  only_exceptions m -> (forall a, only_exceptions (k a)) ->
  only_exceptions (bind m k).
Proof.
  intros Hm Hk e. destruct m as [[e'|a] tr]; cbn.
  - intros H. injection H as <-. apply Hm. reflexivity.
  - specialize (Hk a e). destruct (k a) as [r tr']. exact Hk.
Qed.

Lemma only_exceptions_try_except_else {A B} (m : M E A)
    (catches : exn -> bool) (handler : exn -> M E B) (orelse : A -> M E B) :
  only_exceptions m -> (forall e, only_exceptions (handler e)) ->
  (forall a, only_exceptions (orelse a)) ->
  only_exceptions (try_except_else m catches handler orelse).
Proof.
  intros Hm Hh Ho e. destruct m as [[e'|a] tr]; cbn.
  - destruct (catches e').
    + specialize (Hh e' e). destruct (handler e') as [r tr']. exact Hh.
    + intros H. injection H as <-. apply Hm. reflexivity.
  - specialize (Ho a e). destruct (orelse a) as [r tr']. exact Ho.
Qed.

Lemma only_exceptions_for_each {A} (l : list A) (body : A -> M E unit) :
  (forall a, only_exceptions (body a)) -> only_exceptions (for_each l body).
Proof.
  intros Hb. induction l as [|x l IH]; cbn [for_each].
  - apply only_exceptions_ret.
  - apply only_exceptions_bind; [apply Hb | intros _; exact IH].
Qed.

Lemma only_exceptions_library_call {A} (mk : string -> exn)
    (answer : string + A) :
  (forall what, is_Exception (mk what) = true) ->
  only_exceptions (library_call mk answer : M E A).
Proof.
  intros Hmk. destruct answer as [what|a]; cbn.
  - apply only_exceptions_raise, Hmk.
  - apply only_exceptions_ret.
Qed.

Lemma only_exceptions_getitem (d : gmap string string) (key : string) :
  only_exceptions (getitem d key : M E string).
Proof.
  unfold getitem. destruct (d !! key).
  - apply only_exceptions_ret.
  - apply only_exceptions_raise. reflexivity.
Qed.

End OnlyExceptions.

Create HintDb raises.

#[local] Hint Resolve only_exceptions_ret only_exceptions_emit
  only_exceptions_bind only_exceptions_try_except_else
  only_exceptions_for_each only_exceptions_library_call
  only_exceptions_getitem : raises.

Lemma only_exceptions_send_response (w : WebsiteHelper.world)
    (event : WebsiteHelper.cfn_event) (context : WebsiteHelper.lambda_context)
    (status : string) (data : WebsiteHelper.dict) :
  only_exceptions (WebsiteHelper.send_response w event context status data).
Proof.
  unfold WebsiteHelper.send_response, mbind, M_bind.
  repeat (apply only_exceptions_bind; [auto with raises|intros ?]).
  auto with raises.
Qed.

Lemma only_exceptions_write_to_s3 (w : WebsiteHelper.world)
    (event : WebsiteHelper.cfn_event) (context : WebsiteHelper.lambda_context)
    (bucket key : string) (body : WebsiteHelper.dict) :
  only_exceptions (WebsiteHelper.write_to_s3 w event context bucket key body).
Proof.
  unfold WebsiteHelper.write_to_s3, try_except, mbind, M_bind.
  apply only_exceptions_try_except_else.
  - apply only_exceptions_bind; [auto with raises|intros ?].
    auto with raises.
  - intros e. apply only_exceptions_send_response.
  - intros a. apply only_exceptions_ret.
Qed.

(** Whatever [copy_files] raises is caught by [except Exception]. *)
Lemma only_exceptions_copy_files (w : WebsiteHelper.world)
    (event : WebsiteHelper.cfn_event) (context : WebsiteHelper.lambda_context)
    (source_bucket source_key website_bucket : string) :
  only_exceptions
    (WebsiteHelper.copy_files w event context source_bucket source_key
                              website_bucket).
Proof.
  unfold WebsiteHelper.copy_files, mbind, M_bind.
  apply only_exceptions_try_except_else.
  - repeat (apply only_exceptions_bind; [auto with raises|intros ?]).
    auto with raises.
  - auto with raises.
  - intros [[[[[[? ?] ?] ?] ?] ?] ?].
    apply only_exceptions_bind; [auto with raises|intros manifest].
    apply only_exceptions_for_each. intros key.
    apply only_exceptions_bind; [auto with raises|intros _].
    apply only_exceptions_bind; [auto with raises|intros _].
    cbn [andb]. destruct (String.eqb key "runtimeConfig.json").
    + apply only_exceptions_write_to_s3.
    + apply only_exceptions_ret.
Qed.

Section Callbacks.

Variables (w : WebsiteHelper.world) (event : WebsiteHelper.cfn_event)
          (context : WebsiteHelper.lambda_context)
          (stack_id request_id logical_id url : string).

Hypothesis HStackId : WebsiteHelper.fields event !! "StackId" = Some stack_id.
Hypothesis HRequestId :
  WebsiteHelper.fields event !! "RequestId" = Some request_id.
Hypothesis HLogicalResourceId :
  WebsiteHelper.fields event !! "LogicalResourceId" = Some logical_id.
Hypothesis HResponseURL :
  WebsiteHelper.fields event !! "ResponseURL" = Some url.
Hypothesis Hdelivered :
  forall u body, WebsiteHelper.opener_open w u body = inr tt.

(** With the event complete and the response URL answering,
    [send_response] returns after its one callback. *)
Lemma send_response_delivered (status message : string) :
  WebsiteHelper.send_response w event context status [("Message", message)]
  = (inr tt, [callback context url stack_id request_id logical_id
                       status message]).
Proof.
  unfold WebsiteHelper.send_response, getitem.
  rewrite HStackId, HRequestId, HLogicalResourceId, HResponseURL.
  cbn. rewrite Hdelivered. reflexivity.
Qed.

Lemma copy_source_after_copy_files
    (props : gmap string string)
    (source_bucket source_key deployment_bucket : string) :
  WebsiteHelper.ResourceProperties event = Some props ->
  props !! "WebsiteCodeBucket" = Some source_bucket ->
  props !! "WebsiteCodePrefix" = Some source_key ->
  props !! "DeploymentBucket" = Some deployment_bucket ->
  let copy :=
    WebsiteHelper.copy_files w event context source_bucket source_key
      (hd "" (split "." deployment_bucket)) in
  let failed := callback context url stack_id request_id logical_id
                         "FAILED" WebsiteHelper.error_response_str in
  let success := callback context url stack_id request_id logical_id
                          "SUCCESS" "Resource creation successful!" in
  WebsiteHelper.copy_source w event context
  = (inr tt,
     events copy ++ (match outcome copy with
                     | inl _ => [failed]
                     | inr _ => []
                     end) ++ [success]).
Proof.
  intros Hprops Hsb Hsk Hdb copy failed success.
  pose proof (only_exceptions_copy_files w event context source_bucket
                source_key (hd "" (split "." deployment_bucket))) as Hexn.
  fold copy in Hexn.
  unfold WebsiteHelper.copy_source, WebsiteHelper.resource_property, getitem,
    index.
  rewrite Hprops, Hsb, Hsk, Hdb.
  destruct (split_cons "." deployment_bucket) as [h [tl Hsplit]].
  unfold copy in *. clear copy.
  rewrite !send_response_delivered.
  cbn [mbind M_bind bind mret M_ret ret app].
  rewrite Hsplit in Hexn |- *.
  change ((h :: tl) !! 0%nat) with (Some h).
  cbn [hd] in *.
  cbn [mbind M_bind bind mret M_ret ret try_except_else try_except app].
  destruct (WebsiteHelper.copy_files w event context source_bucket source_key h)
    as [[e|[]] tr].
  - specialize (Hexn e eq_refl).
    unfold try_except, mbind, M_bind.
    cbn [try_except_else bind outcome events fst snd]. rewrite Hexn.
    cbn. rewrite <- app_assoc. reflexivity.
  - unfold try_except, mbind, M_bind. cbn. rewrite app_nil_r. reflexivity.
Qed.

End Callbacks.




(** The same run through [lambda_handler], for a Create request: both
    callbacks reach CloudFormation, FAILED first. *)
Example lambda_handler_create_failing_copy :
  map (fun a => match a with
                | WebsiteHelper.PutResponse _ body => WebsiteHelper.Status body
                | _ => ""
                end)
      (events (WebsiteHelper.lambda_handler failing_copy_world sample_event
                                            sample_context))
  = [""; ""; "FAILED"; "SUCCESS"].
Proof. vm_compute. reflexivity. Qed.

(** When the response URL does not accept the callback: the FAILED
    callback is refused, [send_response] raises inside the handler and
    [copy_source] raises with it, before its last statement. *)
Example copy_source_refused_callback :
  outcome (WebsiteHelper.copy_source refused_callback_world sample_event
                                     sample_context)
  = inl (OSError "URLError")
  /\ map (fun a => match a with
                   | WebsiteHelper.PutResponse _ body => WebsiteHelper.Status body
                   | _ => ""
                   end)
         (events (WebsiteHelper.copy_source refused_callback_world sample_event
                                            sample_context))
     = [""; ""; "FAILED"].
Proof. vm_compute. split; reflexivity. Qed.

(** * Further properties of [sigv4.py] *)

(** ** Endpoint, host and canonical URI *)

Lemma concat_cons (sep x y : string) (l : list string) :
  String.concat sep (x :: y :: l) = x +:+ sep +:+ String.concat sep (y :: l).
Proof. reflexivity. Qed.

Lemma append_empty_r (s : string) : s +:+ "" = s.
Proof.
  induction s as [|c s IH]; [reflexivity|].
  change (String c (s +:+ "") = String c s). now rewrite IH.
Qed.

Lemma join_split (sep : ascii) (s : string) :
  join (String sep "") (split sep s) = s.
Proof.
  unfold join. induction s as [|c s IH]; [reflexivity|].
  cbn [split]. destruct (split_cons sep s) as [h [tl Hs]]. rewrite Hs in *.
  destruct (Ascii.eqb_spec c sep) as [->|Hne].
  - rewrite concat_cons, IH. reflexivity.
  - destruct tl as [|h' tl].
    + rewrite <- IH. reflexivity.
    + rewrite concat_cons in *. rewrite <- IH. reflexivity.
Qed.

Lemma split_parts_without_sep (sep : ascii) (s : string) :
  Forall (fun part => ~ In sep (chars part)) (split sep s).
Proof.
  induction s as [|c s IH]; cbn [split].
  - constructor; [intros []|constructor].
  - destruct (Ascii.eqb_spec c sep) as [->|Hne].
    + constructor; [intros []|exact IH].
    + destruct (split sep s) as [|h tl]; [constructor; [|constructor]|].
      * cbn. intros [?|[]]. congruence.
      * inversion IH as [|? ? Hh Htl]; subst. constructor; [|exact Htl].
        cbn. intros [?|?]; [congruence|]. apply Hh. assumption.
Qed.

(** X1: when the endpoint splits on "/" into scheme, an empty part, host
    and a path, the canonical URI of every call starts with "/" and the
    endpoint is scheme + "/" + empty + "/" + host followed by the
    canonical URI; without a path the canonical URI is "/" alone.  The
    host part, which is what the calls sign as [host], contains no "/". *)
Theorem canonical_uri_recomposes_endpoint
    (w : SigV4.world)
    (access_key secret_key session_token region endpoint domain_name : string)
    (request_parameters body_data : string) (t : datetime)
    (scheme empty : string) (path : list string) :
  split "/" endpoint = scheme :: empty :: domain_name :: path ->
  ~ In "/"%char (chars domain_name)
  /\ Forall
       (fun l =>
          (exists rest, SigV4.canonical_uri l = String "/" rest)
          /\ (path = [] -> SigV4.canonical_uri l = "/")
          /\ endpoint
             = scheme +:+ "/" +:+ empty +:+ "/" +:+ domain_name
                 +:+ (match path with
                      | [] => ""
                      | _ :: _ => SigV4.canonical_uri l
                      end))
       (all_locals w access_key secret_key session_token region endpoint
                   domain_name request_parameters body_data t).
Proof.
  intros Hsplit. split.
  { pose proof (split_parts_without_sep "/" endpoint) as H.
    rewrite Hsplit in H.
    apply Forall_inv_tail, Forall_inv_tail, Forall_inv in H. exact H. }
  pose proof (join_split "/" endpoint) as Hjoin.
  rewrite Hsplit in Hjoin. unfold join in Hjoin.
  each_call; rewrite Hsplit; cbn [drop];
    (split; [eexists; reflexivity|]);
    (split; [intros ->; reflexivity|]);
    rewrite <- Hjoin at 1; destruct path as [|p path];
    cbn [String.concat join]; rewrite ?append_empty_r; reflexivity.
Qed.

Lemma canonical_uri_recomposes_endpoint_witness :
  "https://api.example.com/prod/workflows"
  = "https:" +:+ "/" +:+ "" +:+ "/" +:+ "api.example.com"
      +:+ SigV4.canonical_uri
            (SigV4.get_locals (sample_world sample_endpoint sample_credentials)
               "AKIDEXAMPLE" "secret" "token" "us-east-1"
               "https://api.example.com/prod/workflows" "api.example.com" "a=1"
               (Datetime 2015 8 30 12 36 0)).
Proof.
  pose proof (canonical_uri_recomposes_endpoint
                (sample_world sample_endpoint sample_credentials)
                "AKIDEXAMPLE" "secret" "token" "us-east-1"
                "https://api.example.com/prod/workflows" "api.example.com"
                "a=1" "{}" (Datetime 2015 8 30 12 36 0)
                "https:" "" ["prod"; "workflows"] eq_refl) as [_ H].
  apply Forall_inv_tail, Forall_inv in H.
  destruct H as (_ & _ & H).
  exact H.
Defined.

(** ** The order of a call's effects *)

Lemma logs_of_app (a b : list SigV4.event) :
  logs_of (a ++ b) = logs_of a ++ logs_of b.
Proof. apply List.filter_app. Qed.

(** [send_request] in full: what it returns and every event it leaves. *)
Lemma send_request_trace (w : SigV4.world) (url : string) (h : SigV4.dict)
    (m : string) (data : option string) :
  (let '(r, tr) := SigV4.send_request w url h m data in (r, prologue w ++ tr))
  = dispatched w m url h (if SigV4.truthy data then data else None).
Proof.
  unfold SigV4.send_request, SigV4.call_requests, dispatched.
  destruct (SigV4.truthy data); cbn zeta;
    match goal with
    | |- context [SigV4.requests w m url h ?d] =>
        destruct (SigV4.requests w m url h d)
    end; reflexivity.
Qed.

Lemma signing_calls_dispatched
    (w : SigV4.world) (path request_parameters body_data : string)
    (access_key secret_key session_token region domain_name : string) :
  reaches_signing w path access_key secret_key session_token region domain_name ->
  let endpoint := SigV4.AMC_ENDPOINT w +:+ path in
  let t := SigV4.utcnow w in
  SigV4.delete w path
  = dispatched w "delete" endpoint
      (SigV4.headers
         (SigV4.delete_locals w access_key secret_key session_token region
                              endpoint domain_name t)) None
  /\ SigV4.get w path request_parameters
     = dispatched w "get" (endpoint +:+ "?" +:+ request_parameters)
         (SigV4.headers
            (SigV4.get_locals w access_key secret_key session_token region
                              endpoint domain_name request_parameters t)) None
  /\ SigV4.post w path body_data
     = dispatched w "post" endpoint
         (SigV4.headers
            (SigV4.post_locals w access_key secret_key session_token region
                               endpoint domain_name body_data t))
         (if String.eqb body_data "" then None else Some body_data).
Proof.
  intros (Hsts & Hregion & Hdomain) endpoint t.
  rewrite delete_cases, get_cases, post_cases. cbn zeta.
  rewrite Hsts, Hregion, Hdomain. fold endpoint t.
  split; [|split].
  - exact (send_request_trace w endpoint _ "delete" None).
  - exact (send_request_trace w (endpoint +:+ "?" +:+ request_parameters) _
                              "get" None).
  - pose proof (send_request_trace w endpoint
                  (SigV4.headers
                     (SigV4.post_locals w access_key secret_key session_token
                        region endpoint domain_name body_data t))
                  "post" (Some body_data)) as H.
    destruct body_data; exact H.
Qed.

(** X2: a call that reaches the signing code does exactly this: the
    AssumeRole call, one request (with the URL, headers and body of the
    call), and then it either raises the transport's error as it is,
    logging nothing more, or logs the status code and the text of the
    response and returns the response.  Nothing is retried. *)
Theorem signing_call_trace
    (w : SigV4.world) (path request_parameters body_data : string)
    (access_key secret_key session_token region domain_name : string) :
  reaches_signing w path access_key secret_key session_token region domain_name ->
  let endpoint := SigV4.AMC_ENDPOINT w +:+ path in
  let t := SigV4.utcnow w in
  SigV4.delete w path
  = dispatched w "delete" endpoint
      (SigV4.headers
         (SigV4.delete_locals w access_key secret_key session_token region
                              endpoint domain_name t)) None
  /\ SigV4.get w path request_parameters
     = dispatched w "get" (endpoint +:+ "?" +:+ request_parameters)
         (SigV4.headers
            (SigV4.get_locals w access_key secret_key session_token region
                              endpoint domain_name request_parameters t)) None
  /\ SigV4.post w path body_data
     = dispatched w "post" endpoint
         (SigV4.headers
            (SigV4.post_locals w access_key secret_key session_token region
                               endpoint domain_name body_data t))
         (if String.eqb body_data "" then None else Some body_data).
Proof. exact (signing_calls_dispatched w path request_parameters body_data
                access_key secret_key session_token region domain_name).
Qed.

Lemma signing_call_trace_witness :
  outcome (SigV4.delete (sample_world sample_endpoint sample_credentials)
                        "/workflows")
  = inr (SigV4.Response 200 "{}").
Proof.
  rewrite (proj1 (signing_call_trace
                    (sample_world sample_endpoint sample_credentials)
                    "/workflows" "a=1" "{}" _ _ _ _ _ sample_reaches_signing)).
  reflexivity.
Defined.

(** X3: in every world, whatever happens later, a call starts with the
    log line and the AssumeRole call of [get_amc_api_tokens], calls STS
    exactly once (credentials are fetched anew by every call and never
    twice), and sends at most one request. *)
Theorem every_call_assumes_role_once
    (w : SigV4.world) (path request_parameters body_data : string) :
  Forall
    (fun call : M SigV4.event SigV4.response =>
       (exists rest, events call = prologue w ++ rest)
       /\ sts_calls_of (events call)
          = [SigV4.AssumeRole (SigV4.AMC_API_ROLE w) "amcufa_api_handler"]
       /\ (length (requests_of (events call)) <= 1)%nat)
    [ SigV4.delete w path;
      SigV4.get w path request_parameters;
      SigV4.post w path body_data ].
Proof.
  rewrite delete_cases, get_cases, post_cases. cbn zeta.
  destruct (SigV4.assume_role w) as [what|[[ak sk] tok]].
  { each_call; (split; [exists []; symmetry; apply app_nil_r|]);
      (split; [reflexivity|cbn; lia]). }
  destruct (SigV4.environ w !! "AWS_REGION") as [region|].
  2: { each_call; (split; [exists []; symmetry; apply app_nil_r|]);
         (split; [reflexivity|cbn; lia]). }
  destruct (split "/" (SigV4.AMC_ENDPOINT w +:+ path) !! 2%nat) as [dom|].
  2: { each_call; (split; [exists []; symmetry; apply app_nil_r|]);
         (split; [reflexivity|cbn; lia]). }
  destruct ak as [ak|]; [destruct sk as [sk|]|].
  2-3: each_call; (split; [eexists; reflexivity|]);
         (split; [reflexivity|cbn; lia]).
  each_call;
    match goal with
    | |- context [SigV4.send_request ?a ?b ?c ?d ?e] =>
        pose proof (send_request_events a b c d e) as [Hreq Hsts];
        destruct (SigV4.send_request a b c d e) as [r tr]
    end;
    unfold events in *; cbn [snd] in *;
    (split; [eexists; reflexivity|]);
    rewrite sts_calls_of_app, requests_of_app, Hreq, Hsts;
    (split; [reflexivity|cbn; lia]).
Qed.

(** X4: when the AssumeRole call fails, [delete], [get] and [post] raise
    the error of STS unchanged, right after the call: nothing is signed,
    no request is sent and no error line is logged. *)
Theorem sts_failure_propagates
    (w : SigV4.world) (path request_parameters body_data what : string) :
  SigV4.assume_role w = inl what ->
  Forall
    (fun call : M SigV4.event SigV4.response =>
       call = (inl (ClientError what), prologue w))
    [ SigV4.delete w path;
      SigV4.get w path request_parameters;
      SigV4.post w path body_data ].
Proof.
  intros Hsts. rewrite delete_cases, get_cases, post_cases. cbn zeta.
  rewrite Hsts. each_call; reflexivity.
Qed.

Lemma sts_failure_propagates_witness :
  outcome (SigV4.get sts_down_world "/workflows" "a=1")
  = inl (ClientError "AccessDenied").
Proof.
  pose proof (sts_failure_propagates sts_down_world "/workflows" "a=1" "{}"
                "AccessDenied" eq_refl) as H.
  apply Forall_inv_tail, Forall_inv in H. rewrite H. reflexivity.
Defined.

(** X5: when STS answers but AWS_REGION is not in the environment, each
    call raises [KeyError] for that name after the AssumeRole call; this
    comes before the credentials are looked at and before the endpoint is
    split, so it is what is raised also when a key is [None] or the
    endpoint is malformed. *)
Theorem missing_region_raises_key_error
    (w : SigV4.world) (path request_parameters body_data : string)
    (credentials : option string * option string * string) :
  SigV4.assume_role w = inr credentials ->
  SigV4.environ w !! "AWS_REGION" = None ->
  Forall
    (fun call : M SigV4.event SigV4.response =>
       call = (inl (KeyError "AWS_REGION"), prologue w))
    [ SigV4.delete w path;
      SigV4.get w path request_parameters;
      SigV4.post w path body_data ].
Proof.
  intros Hsts Hregion. rewrite delete_cases, get_cases, post_cases. cbn zeta.
  rewrite Hsts, Hregion. destruct credentials as [[ak sk] tok].
  each_call; reflexivity.
Qed.

Lemma missing_region_raises_key_error_witness :
  outcome (SigV4.delete no_region_world "") = inl (KeyError "AWS_REGION").
Proof.
  pose proof (missing_region_raises_key_error no_region_world "" "a=1" "{}"
                (None, None, "token") eq_refl eq_refl) as H.
  apply Forall_inv in H. rewrite H. reflexivity.
Defined.

(** ** What is logged, and the two dates *)

Lemma dispatched_logs (w : SigV4.world) (m url : string) (h : SigV4.dict)
    (d : option string) :
  logs_of (events (dispatched w m url h d))
  = [ SigV4.Log SigV4.INFO ("assuming role " +:+ SigV4.AMC_API_ROLE w);
      SigV4.Log SigV4.INFO
        (LF +:+ "BEGIN REQUEST+++++++++++++++++++++++++++++++++++");
      SigV4.Log SigV4.INFO ("Request URL = " +:+ url) ]
      ++ match SigV4.requests w m url h d with
         | inl _ => []
         | inr r =>
             [ SigV4.Log SigV4.INFO
                 (LF +:+ "RESPONSE+++++++++++++++++++++++++++++++++++");
               SigV4.Log SigV4.INFO
                 ("Response code: " +:+ pretty (SigV4.status_code r) +:+ LF);
               SigV4.Log SigV4.INFO (SigV4.text r) ]
         end.
Proof.
  unfold dispatched, events. cbn [snd].
  destruct (SigV4.requests w m url h d); reflexivity.
Qed.

(** X6: the access key, the secret key and the session token never reach
    the log.  Two calls that differ only in the credentials STS returned,
    over a transport whose answer does not depend on the headers, log the
    same lines and end the same way. *)
Theorem logs_independent_of_credentials
    (w1 w2 : SigV4.world) (path request_parameters body_data : string)
    (access_key1 secret_key1 session_token1 : string)
    (access_key2 secret_key2 session_token2 : string)
    (region domain_name : string) :
  reaches_signing w1 path access_key1 secret_key1 session_token1
                  region domain_name ->
  reaches_signing w2 path access_key2 secret_key2 session_token2
                  region domain_name ->
  SigV4.AMC_ENDPOINT w1 = SigV4.AMC_ENDPOINT w2 ->
  SigV4.AMC_API_ROLE w1 = SigV4.AMC_API_ROLE w2 ->
  (forall m u h1 h2 d, SigV4.requests w1 m u h1 d = SigV4.requests w2 m u h2 d) ->
  Forall2
    (fun call1 call2 : M SigV4.event SigV4.response =>
       logs_of (events call1) = logs_of (events call2)
       /\ outcome call1 = outcome call2)
    [ SigV4.delete w1 path;
      SigV4.get w1 path request_parameters;
      SigV4.post w1 path body_data ]
    [ SigV4.delete w2 path;
      SigV4.get w2 path request_parameters;
      SigV4.post w2 path body_data ].
Proof.
  intros H1 H2 Hendpoint Hrole Hsame.
  destruct (signing_calls_dispatched w1 path request_parameters body_data
              _ _ _ _ _ H1) as (Hd1 & Hg1 & Hp1).
  destruct (signing_calls_dispatched w2 path request_parameters body_data
              _ _ _ _ _ H2) as (Hd2 & Hg2 & Hp2).
  cbn zeta in *. rewrite Hd1, Hg1, Hp1, Hd2, Hg2, Hp2.
  once (constructor; [|constructor; [|constructor; [|constructor]]]);
    rewrite !dispatched_logs, Hrole, Hendpoint;
    unfold dispatched, outcome; cbn [fst];
    match goal with
    | |- context [SigV4.requests w1 ?m ?u ?h ?d] =>
        match goal with
        | |- context [SigV4.requests w2 m u ?h' d] =>
            rewrite (Hsame m u h h' d)
        end
    end;
    split; reflexivity.
Qed.

Lemma logs_independent_of_credentials_witness :
  logs_of (events (SigV4.delete
                     (sample_world sample_endpoint sample_credentials)
                     "/workflows"))
  = logs_of (events (SigV4.delete
                       (sample_world sample_endpoint
                                     (Some "AKIDOTHER", Some "other", "token2"))
                       "/workflows")).
Proof.
  assert (H2 : reaches_signing
                 (sample_world sample_endpoint
                               (Some "AKIDOTHER", Some "other", "token2"))
                 "/workflows" "AKIDOTHER" "other" "token2" "us-east-1"
                 "api.example.com") by (repeat split).
  pose proof (logs_independent_of_credentials
                (sample_world sample_endpoint sample_credentials)
                (sample_world sample_endpoint
                              (Some "AKIDOTHER", Some "other", "token2"))
                "/workflows" "a=1" "{}" _ _ _ _ _ _ _ _
                sample_reaches_signing H2 eq_refl eq_refl
                (fun _ _ _ _ _ => eq_refl)) as H.
  apply Forall2_cons_1 in H. exact (proj1 (proj1 H)).
Defined.

(** X7: the time stamp of the x-amz-date header and the date of the
    credential scope come from the same instant: the time stamp is the
    date stamp followed by "T", the time of day and "Z", and the scope
    starts with the date stamp. *)
Theorem amzdate_extends_datestamp
    (w : SigV4.world)
    (access_key secret_key session_token region endpoint domain_name : string)
    (request_parameters body_data : string) (t : datetime) :
  Forall
    (fun l =>
       SigV4.datestamp l
       = zero_pad 4 (year t) +:+ zero_pad 2 (month t) +:+ zero_pad 2 (day t)
       /\ SigV4.amzdate l
          = SigV4.datestamp l +:+ "T" +:+ zero_pad 2 (hour t)
              +:+ zero_pad 2 (minute t) +:+ zero_pad 2 (second t) +:+ "Z"
       /\ SigV4.credential_scope l
          = SigV4.datestamp l +:+ "/" +:+ region +:+ "/execute-api/aws4_request"
       /\ In ("x-amz-date", SigV4.amzdate l) (SigV4.headers l))
    (all_locals w access_key secret_key session_token region endpoint
                domain_name request_parameters body_data t).
Proof.
  assert (Hd : strftime t "%Y%m%d"
               = zero_pad 4 (year t) +:+ zero_pad 2 (month t)
                   +:+ zero_pad 2 (day t)).
  { cbn [strftime Ascii.eqb Bool.eqb directive]. cbn [Ascii.eqb Bool.eqb].
    now rewrite append_empty_r. }
  assert (Ha : strftime t "%Y%m%dT%H%M%SZ"
               = strftime t "%Y%m%d" +:+ "T" +:+ zero_pad 2 (hour t)
                   +:+ zero_pad 2 (minute t) +:+ zero_pad 2 (second t) +:+ "Z").
  { rewrite Hd. cbn [strftime Ascii.eqb Bool.eqb directive].
    cbn [Ascii.eqb Bool.eqb]. rewrite !append_assoc. reflexivity. }
  each_call; (split; [exact Hd|]); (split; [exact Ha|]);
    (split; [reflexivity|]); right; left; reflexivity.
Qed.

(** * Further properties of [website_helper.py] *)

(** ** [send_response] and the bucket name *)

(** X8: when the event lacks one of the keys [send_response] reads, it
    raises [KeyError] for one of them and nothing is put to the response
    URL. *)
Theorem send_response_needs_the_event_fields
    (w : WebsiteHelper.world) (event : WebsiteHelper.cfn_event)
    (context : WebsiteHelper.lambda_context) (status : string)
    (data : WebsiteHelper.dict) :
  Exists (fun key => WebsiteHelper.fields event !! key = None) response_fields ->
  events (WebsiteHelper.send_response w event context status data) = []
  /\ exists key,
       In key response_fields
       /\ outcome (WebsiteHelper.send_response w event context status data)
          = inl (KeyError key).
Proof.
  intros Hmissing. unfold WebsiteHelper.send_response, getitem, response_fields.
  destruct (WebsiteHelper.fields event !! "StackId") eqn:E1;
    [|split; [reflexivity|exists "StackId"; cbn; auto]].
  destruct (WebsiteHelper.fields event !! "RequestId") eqn:E2;
    [|split; [reflexivity|exists "RequestId"; cbn; auto]].
  destruct (WebsiteHelper.fields event !! "LogicalResourceId") eqn:E3;
    [|split; [reflexivity|exists "LogicalResourceId"; cbn; auto]].
  destruct (WebsiteHelper.fields event !! "ResponseURL") eqn:E4;
    [|split; [reflexivity|exists "ResponseURL"; cbn; auto 6]].
  exfalso. unfold response_fields in Hmissing.
  repeat (inversion Hmissing as [? ? Hk|? ? Hrest]; subst;
          [congruence|]; clear Hmissing; rename Hrest into Hmissing).
  inversion Hmissing.
Qed.

Lemma send_response_needs_the_event_fields_witness :
  events (WebsiteHelper.send_response failing_copy_world
            (WebsiteHelper.CfnEvent ∅ None) sample_context "SUCCESS" []) = [].
Proof.
  apply (send_response_needs_the_event_fields failing_copy_world
           (WebsiteHelper.CfnEvent ∅ None) sample_context "SUCCESS" []).
  unfold response_fields. left. reflexivity.
Defined.

(** X9: the bucket [copy_source] copies into and [purge_bucket] empties
    is the DeploymentBucket property up to its first ".": it contains no
    "." and the property is that name alone or that name, a "." and a
    rest. *)
Theorem bucket_name_is_first_label (deployment_bucket : string) :
  let bucket_name := hd "" (split "." deployment_bucket) in
  ~ In "."%char (chars bucket_name)
  /\ (deployment_bucket = bucket_name
      \/ exists rest, deployment_bucket = bucket_name +:+ "." +:+ rest)
  /\ index (E := WebsiteHelper.action) (split "." deployment_bucket) 0
     = ret bucket_name.
Proof.
  intros bucket_name. unfold bucket_name.
  pose proof (split_parts_without_sep "." deployment_bucket) as Hparts.
  pose proof (join_split "." deployment_bucket) as Hjoin.
  destruct (split_cons "." deployment_bucket) as [h [tl Hsplit]].
  rewrite Hsplit in *. cbn [hd]. split; [|split].
  - apply Forall_inv in Hparts. exact Hparts.
  - unfold join in Hjoin. destruct tl as [|h' tl].
    + left. symmetry. exact Hjoin.
    + right. rewrite concat_cons in Hjoin. eexists. symmetry. exact Hjoin.
  - reflexivity.
Qed.

(** ** [copy_source] *)

(** A loop whose body returns on every element returns, and leaves the
    actions of the bodies in order; a loop stops at the first element on
    which its body raises. *)
Lemma for_each_returns {E A} (body : A -> M E unit) (acts : A -> list E)
    (l : list A) :
  (forall x, In x l -> body x = (inr tt, acts x)) ->
  for_each l body = (inr tt, flat_map acts l).
Proof.
  intros Hbody. induction l as [|x l IH]; [reflexivity|].
  cbn [for_each flat_map]. rewrite (Hbody x) by (left; reflexivity).
  cbn [bind]. rewrite IH by (intros y Hy; apply Hbody; right; exact Hy).
  reflexivity.
Qed.

Lemma for_each_raises {E A} (body : A -> M E unit) (acts : A -> list E)
    (l rest : list A) (x : A) (e : exn) (tr : list E) :
  (forall y, In y l -> body y = (inr tt, acts y)) ->
  body x = (inl e, tr) ->
  for_each (l ++ x :: rest) body = (inl e, flat_map acts l ++ tr).
Proof.
  intros Hbody Hx. induction l as [|y l IH].
  - cbn [app for_each flat_map]. rewrite Hx. reflexivity.
  - cbn [app for_each flat_map]. rewrite (Hbody y) by (left; reflexivity).
    cbn [bind]. rewrite IH by (intros z Hz; apply Hbody; right; exact Hz).
    rewrite app_assoc. reflexivity.
Qed.

(** [write_to_s3] when S3 takes the object. *)
Lemma write_to_s3_stored (w : WebsiteHelper.world)
    (event : WebsiteHelper.cfn_event) (context : WebsiteHelper.lambda_context)
    (bucket key : string) (body : WebsiteHelper.dict) :
  WebsiteHelper.s3_put_object w bucket key body = inr tt ->
  WebsiteHelper.write_to_s3 w event context bucket key body
  = (inr tt, [WebsiteHelper.PutObject bucket key body]).
Proof.
  intros Hput. unfold WebsiteHelper.write_to_s3. rewrite Hput. reflexivity.
Qed.


Section CopySource.

Variables (w : WebsiteHelper.world) (event : WebsiteHelper.cfn_event)
          (context : WebsiteHelper.lambda_context)
          (stack_id request_id logical_id url : string)
          (props : gmap string string)
          (source_bucket source_key deployment_bucket : string)
          (user_pool_id region client_id identity_id data_bucket_name
           artifact_bucket_name encryption_mode : string).

Hypothesis HStackId : WebsiteHelper.fields event !! "StackId" = Some stack_id.
Hypothesis HRequestId :
  WebsiteHelper.fields event !! "RequestId" = Some request_id.
Hypothesis HLogicalResourceId :
  WebsiteHelper.fields event !! "LogicalResourceId" = Some logical_id.
Hypothesis HResponseURL :
  WebsiteHelper.fields event !! "ResponseURL" = Some url.
Hypothesis Hdelivered :
  forall u body, WebsiteHelper.opener_open w u body = inr tt.

Hypothesis Hprops : WebsiteHelper.ResourceProperties event = Some props.
Hypothesis Hsource_bucket : props !! "WebsiteCodeBucket" = Some source_bucket.
Hypothesis Hsource_key : props !! "WebsiteCodePrefix" = Some source_key.
Hypothesis Hdeployment_bucket :
  props !! "DeploymentBucket" = Some deployment_bucket.

Hypothesis HUserPoolId :
  WebsiteHelper.environ w !! "UserPoolId" = Some user_pool_id.
Hypothesis HAwsRegion : WebsiteHelper.environ w !! "AwsRegion" = Some region.
Hypothesis HPoolClientId :
  WebsiteHelper.environ w !! "PoolClientId" = Some client_id.
Hypothesis HIdentityPoolId :
  WebsiteHelper.environ w !! "IdentityPoolId" = Some identity_id.
Hypothesis HDataBucketName :
  WebsiteHelper.environ w !! "DataBucketName" = Some data_bucket_name.
Hypothesis HArtifactBucketName :
  WebsiteHelper.environ w !! "ArtifactBucketName" = Some artifact_bucket_name.
Hypothesis HEncryptionMode :
  WebsiteHelper.environ w !! "EncryptionMode" = Some encryption_mode.

Let website_bucket : string := hd "" (split "." deployment_bucket).

Let new_variables : WebsiteHelper.dict :=
  new_variables_of user_pool_id region client_id identity_id data_bucket_name
                   artifact_bucket_name encryption_mode.

Let failed (message : string) : WebsiteHelper.action :=
  callback context url stack_id request_id logical_id "FAILED" message.

Let success : WebsiteHelper.action :=
  callback context url stack_id request_id logical_id "SUCCESS"
           "Resource creation successful!".

(** [write_to_s3] when S3 refuses the object. *)
Lemma write_to_s3_refused (bucket key what : string) (body : WebsiteHelper.dict) :
  WebsiteHelper.s3_put_object w bucket key body = inl what ->
  WebsiteHelper.write_to_s3 w event context bucket key body
  = (inr tt,
     [ WebsiteHelper.PutObject bucket key body;
       failed "Failed to write file to s3 after variable replacement" ]).
Proof.
  intros Hput. unfold WebsiteHelper.write_to_s3, try_except.
  rewrite (send_response_delivered w event context stack_id request_id
             logical_id url HStackId HRequestId HLogicalResourceId
             HResponseURL Hdelivered).
  rewrite Hput. reflexivity.
Qed.

Ltac enter_loop :=
  unfold WebsiteHelper.copy_files, getitem;
  rewrite HUserPoolId, HAwsRegion, HPoolClientId, HIdentityPoolId,
    HDataBucketName, HArtifactBucketName, HEncryptionMode.

Lemma copy_files_copies (after_put : list WebsiteHelper.action)
    (keys : list string) :
  WebsiteHelper.manifest w = inr keys ->
  (forall key,
      In key keys ->
      WebsiteHelper.s3_copy w source_bucket (source_key +:+ "/" +:+ key)
                            website_bucket key = inr tt) ->
  (forall key,
      WebsiteHelper.write_to_s3 w event context website_bucket key new_variables
      = (inr tt,
         WebsiteHelper.PutObject website_bucket key new_variables :: after_put)) ->
  WebsiteHelper.copy_files w event context source_bucket source_key
                           website_bucket
  = (inr tt,
     copied source_bucket source_key website_bucket new_variables after_put keys).
Proof.
  intros Hmanifest Hcopy Hwrite. enter_loop. rewrite Hmanifest.
  cbn [mbind M_bind bind mret M_ret ret try_except_else library_call app].
  match goal with
  | |- context [for_each keys ?b] =>
      rewrite (for_each_returns b
                 (fun key =>
                    WebsiteHelper.Copy source_bucket
                      (source_key +:+ "/" +:+ key) website_bucket key
                    :: (if String.eqb key "runtimeConfig.json"
                        then WebsiteHelper.PutObject website_bucket key
                               new_variables :: after_put
                        else [])) keys)
  end; [reflexivity|].
  intros key Hkey. cbn [emit bind app]. rewrite (Hcopy key Hkey).
  cbn [library_call ret bind app andb].
  destruct (String.eqb key "runtimeConfig.json");
    [fold new_variables; unfold new_variables_of; rewrite Hwrite|]; reflexivity.
Qed.

Lemma copy_files_stops (keys rest : list string) (key what : string) :
  WebsiteHelper.manifest w = inr (keys ++ key :: rest) ->
  (forall k,
      In k keys ->
      WebsiteHelper.s3_copy w source_bucket (source_key +:+ "/" +:+ k)
                            website_bucket k = inr tt) ->
  (forall k,
      WebsiteHelper.write_to_s3 w event context website_bucket k new_variables
      = (inr tt, [WebsiteHelper.PutObject website_bucket k new_variables])) ->
  WebsiteHelper.s3_copy w source_bucket (source_key +:+ "/" +:+ key)
                        website_bucket key = inl what ->
  WebsiteHelper.copy_files w event context source_bucket source_key
                           website_bucket
  = (inl (ClientError what),
     copied source_bucket source_key website_bucket new_variables [] keys
       ++ [WebsiteHelper.Copy source_bucket (source_key +:+ "/" +:+ key)
                              website_bucket key]).
Proof.
  intros Hmanifest Hcopy Hwrite Hfail. enter_loop. rewrite Hmanifest.
  cbn [mbind M_bind bind mret M_ret ret try_except_else library_call app].
  match goal with
  | |- context [for_each (keys ++ key :: rest) ?b] =>
      rewrite (for_each_raises b
                 (fun k =>
                    WebsiteHelper.Copy source_bucket
                      (source_key +:+ "/" +:+ k) website_bucket k
                    :: (if String.eqb k "runtimeConfig.json"
                        then [WebsiteHelper.PutObject website_bucket k
                                new_variables]
                        else [])) keys rest key (ClientError what)
                 [WebsiteHelper.Copy source_bucket
                    (source_key +:+ "/" +:+ key) website_bucket key])
  end; [reflexivity| |].
  - intros k Hk. cbn [emit bind app]. rewrite (Hcopy k Hk).
    cbn [library_call ret bind app andb].
    destruct (String.eqb k "runtimeConfig.json");
      [fold new_variables; unfold new_variables_of; rewrite Hwrite|];
      reflexivity.
  - cbn [emit bind app]. rewrite Hfail. reflexivity.
Qed.

Lemma copy_files_without_manifest (what : string) :
  WebsiteHelper.manifest w = inl what ->
  WebsiteHelper.copy_files w event context source_bucket source_key
                           website_bucket
  = (inl (OSError what), []).
Proof. intros Hmanifest. enter_loop. rewrite Hmanifest. reflexivity. Qed.

(** [copy_source] once the event fields are read, from what [copy_files]
    does. *)
Lemma copy_source_from_copy_files (r : exn + unit)
    (tr : list WebsiteHelper.action) :
  WebsiteHelper.copy_files w event context source_bucket source_key
                           website_bucket = (r, tr) ->
  WebsiteHelper.copy_source w event context
  = (inr tt,
     tr ++ (match r with
            | inl _ => [failed WebsiteHelper.error_response_str]
            | inr _ => []
            end) ++ [success]).
Proof.
  intros Hcopy.
  rewrite (copy_source_after_copy_files w event context stack_id request_id
             logical_id url HStackId HRequestId HLogicalResourceId
             HResponseURL Hdelivered props source_bucket source_key
             deployment_bucket Hprops Hsource_bucket Hsource_key
             Hdeployment_bucket).
  cbn zeta. fold website_bucket. rewrite Hcopy. reflexivity.
Qed.


(** X11: when the event carries the fields [send_response] reads and the
    response URL accepts every callback, the loop stops at the first key
    whose copy fails: the keys before it are copied, the keys after it
    are not touched, and [copy_source] sends FAILED and then SUCCESS. *)
Theorem copy_source_stops_at_first_failed_copy
    (keys rest : list string) (key what : string) :
  WebsiteHelper.manifest w = inr (keys ++ key :: rest) ->
  (forall k,
      In k keys ->
      WebsiteHelper.s3_copy w source_bucket (source_key +:+ "/" +:+ k)
                            website_bucket k = inr tt) ->
  (forall k,
      WebsiteHelper.s3_put_object w website_bucket k new_variables = inr tt) ->
  WebsiteHelper.s3_copy w source_bucket (source_key +:+ "/" +:+ key)
                        website_bucket key = inl what ->
  WebsiteHelper.copy_source w event context
  = (inr tt,
     copied source_bucket source_key website_bucket new_variables [] keys
       ++ [ WebsiteHelper.Copy source_bucket (source_key +:+ "/" +:+ key)
                               website_bucket key;
            failed WebsiteHelper.error_response_str;
            success ]).
Proof.
  intros Hmanifest Hcopy Hput Hfail.
  rewrite (copy_source_from_copy_files (inl (ClientError what))
             (copied source_bucket source_key website_bucket new_variables []
                     keys
                ++ [WebsiteHelper.Copy source_bucket
                      (source_key +:+ "/" +:+ key) website_bucket key])).
  - rewrite <- app_assoc. reflexivity.
  - apply (copy_files_stops keys rest key what);
      [exact Hmanifest|exact Hcopy| |exact Hfail].
    intros k. apply write_to_s3_stored, Hput.
Qed.

(** X12: when the event carries the fields [send_response] reads and the
    response URL accepts every callback, a refused upload of
    runtimeConfig.json does not stop the copy: [write_to_s3] sends a
    FAILED callback of its own and returns, the remaining keys are copied,
    and [copy_source] still ends with SUCCESS. *)
Theorem copy_source_goes_on_after_refused_upload
    (keys : list string) (what : string) :
  WebsiteHelper.manifest w = inr keys ->
  (forall key,
      In key keys ->
      WebsiteHelper.s3_copy w source_bucket (source_key +:+ "/" +:+ key)
                            website_bucket key = inr tt) ->
  (forall key,
      WebsiteHelper.s3_put_object w website_bucket key new_variables
      = inl what) ->
  WebsiteHelper.copy_source w event context
  = (inr tt,
     copied source_bucket source_key website_bucket new_variables
            [failed "Failed to write file to s3 after variable replacement"]
            keys
       ++ [success]).
Proof.
  intros Hmanifest Hcopy Hput.
  apply (copy_source_from_copy_files (inr tt)).
  apply copy_files_copies; [exact Hmanifest|exact Hcopy|].
  intros key. apply (write_to_s3_refused _ _ what), Hput.
Qed.

(** X13: when the event carries the fields [send_response] reads and the
    response URL accepts every callback, and the manifest cannot be read,
    nothing is copied and [copy_source] sends FAILED and then SUCCESS. *)
Theorem copy_source_without_manifest (what : string) :
  WebsiteHelper.manifest w = inl what ->
  WebsiteHelper.copy_source w event context
  = (inr tt, [failed WebsiteHelper.error_response_str; success]).
Proof.
  intros Hmanifest.
  apply (copy_source_from_copy_files (inl (OSError what)) []).
  apply copy_files_without_manifest, Hmanifest.
Qed.

End CopySource.


Lemma copy_source_stops_at_first_failed_copy_witness :
  events (WebsiteHelper.copy_source failing_middle_world sample_event
                                    sample_context)
  = [ WebsiteHelper.Copy "build-bucket" "amcufa/v3.0.0/website/index.html"
                         "website-bucket" "index.html";
      WebsiteHelper.Copy "build-bucket" "amcufa/v3.0.0/website/runtimeConfig.json"
                         "website-bucket" "runtimeConfig.json";
      callback sample_context "https://cloudformation.example.com/response"
               "stack-1" "request-1" "CopyWebSource" "FAILED"
               "Unexpected event received from CloudFormation";
      callback sample_context "https://cloudformation.example.com/response"
               "stack-1" "request-1" "CopyWebSource" "SUCCESS"
               "Resource creation successful!" ].
Proof.
  assert (Hcopy : forall k,
             In k ["index.html"] ->
             WebsiteHelper.s3_copy failing_middle_world "build-bucket"
               ("amcufa/v3.0.0/website" +:+ "/" +:+ k)
               (hd "" (split "." "website-bucket.s3.amazonaws.com")) k
             = inr tt)
    by (intros k [<-|[]]; reflexivity).
  rewrite (copy_source_stops_at_first_failed_copy
             failing_middle_world sample_event sample_context
             _ _ _ _ _ _ _ _ _ _ _ _ _ _ _
             eq_refl eq_refl eq_refl eq_refl (fun _ _ => eq_refl)
             eq_refl eq_refl eq_refl eq_refl
             eq_refl eq_refl eq_refl eq_refl eq_refl eq_refl eq_refl
             ["index.html"] ["app.js"] "runtimeConfig.json" "AccessDenied"
             eq_refl Hcopy (fun _ => eq_refl) eq_refl).
  reflexivity.
Defined.

Lemma copy_source_goes_on_after_refused_upload_witness :
  callbacks_of
    (events (WebsiteHelper.copy_source (full_world (inl "AccessDenied") (inr tt))
                                       sample_event sample_context))
  = [ ("FAILED",
       [("Message", "Failed to write file to s3 after variable replacement")]);
      ("SUCCESS", [("Message", "Resource creation successful!")]) ].
Proof.
  rewrite (copy_source_goes_on_after_refused_upload
             (full_world (inl "AccessDenied") (inr tt)) sample_event
             sample_context
             _ _ _ _ _ _ _ _ _ _ _ _ _ _ _
             eq_refl eq_refl eq_refl eq_refl (fun _ _ => eq_refl)
             eq_refl eq_refl eq_refl eq_refl
             eq_refl eq_refl eq_refl eq_refl eq_refl eq_refl eq_refl
             ["index.html"; "runtimeConfig.json"; "app.js"] "AccessDenied"
             eq_refl (fun _ _ => eq_refl) (fun _ => eq_refl)).
  reflexivity.
Defined.

Lemma copy_source_without_manifest_witness :
  callbacks_of
    (events (WebsiteHelper.copy_source no_manifest_world sample_event
                                       sample_context))
  = [ ("FAILED", [("Message", "Unexpected event received from CloudFormation")]);
      ("SUCCESS", [("Message", "Resource creation successful!")]) ].
Proof.
  rewrite (copy_source_without_manifest
             no_manifest_world sample_event sample_context
             _ _ _ _ _ _ _ _ _ _ _ _ _ _ _
             eq_refl eq_refl eq_refl eq_refl (fun _ _ => eq_refl)
             eq_refl eq_refl eq_refl eq_refl
             eq_refl eq_refl eq_refl eq_refl eq_refl eq_refl eq_refl
             "No such file or directory" eq_refl).
  reflexivity.
Defined.

(** ** [copy_source] without its inputs, [purge_bucket], [lambda_handler] *)

Section Responses.

Variables (w : WebsiteHelper.world) (event : WebsiteHelper.cfn_event)
          (context : WebsiteHelper.lambda_context)
          (stack_id request_id logical_id url : string).

Hypothesis HStackId : WebsiteHelper.fields event !! "StackId" = Some stack_id.
Hypothesis HRequestId :
  WebsiteHelper.fields event !! "RequestId" = Some request_id.
Hypothesis HLogicalResourceId :
  WebsiteHelper.fields event !! "LogicalResourceId" = Some logical_id.
Hypothesis HResponseURL :
  WebsiteHelper.fields event !! "ResponseURL" = Some url.
Hypothesis Hdelivered :
  forall u body, WebsiteHelper.opener_open w u body = inr tt.

Let respond (status message : string) : WebsiteHelper.action :=
  callback context url stack_id request_id logical_id status message.

Ltac delivered :=
  rewrite ?(send_response_delivered w event context stack_id request_id
              logical_id url HStackId HRequestId HLogicalResourceId
              HResponseURL Hdelivered).

Lemma copy_source_lacking_a_property :
  lacks_a_property event ->
  WebsiteHelper.copy_source w event context
  = (inr tt,
     [respond "FAILED"
        "Failed to retrieve required values from the CloudFormation event"]).
Proof.
  unfold lacks_a_property, property_names. intros Hlacks.
  unfold WebsiteHelper.copy_source, WebsiteHelper.resource_property, getitem.
  delivered.
  destruct (WebsiteHelper.ResourceProperties event) as [props|]; [|reflexivity].
  destruct (props !! "WebsiteCodeBucket") eqn:E1; [|reflexivity].
  destruct (props !! "WebsiteCodePrefix") eqn:E2; [|reflexivity].
  destruct (props !! "DeploymentBucket") eqn:E3; [|reflexivity].
  exfalso.
  repeat (inversion Hlacks as [? ? Hk|? ? Hrest]; subst;
          [congruence|]; clear Hlacks; rename Hrest into Hlacks).
  inversion Hlacks.
Qed.



(** [copy_source] returns, and a callback is the last thing it does. *)
Lemma copy_source_returns :
  exists tr status message,
    WebsiteHelper.copy_source w event context
    = (inr tt, tr ++ [respond status message]).
Proof.
  destruct (WebsiteHelper.ResourceProperties event) as [props|] eqn:Hprops.
  2: { exists [], "FAILED". eexists. apply copy_source_lacking_a_property.
       unfold lacks_a_property. rewrite Hprops. exact I. }
  destruct (props !! "WebsiteCodeBucket") as [sb|] eqn:E1.
  2: { exists [], "FAILED". eexists. apply copy_source_lacking_a_property.
       unfold lacks_a_property, property_names. rewrite Hprops.
       left. exact E1. }
  destruct (props !! "WebsiteCodePrefix") as [sk|] eqn:E2.
  2: { exists [], "FAILED". eexists. apply copy_source_lacking_a_property.
       unfold lacks_a_property, property_names. rewrite Hprops.
       right. left. exact E2. }
  destruct (props !! "DeploymentBucket") as [db|] eqn:E3.
  2: { exists [], "FAILED". eexists. apply copy_source_lacking_a_property.
       unfold lacks_a_property, property_names. rewrite Hprops.
       right. right. left. exact E3. }
  rewrite (copy_source_after_copy_files w event context stack_id request_id
             logical_id url HStackId HRequestId HLogicalResourceId
             HResponseURL Hdelivered props sb sk db Hprops E1 E2 E3).
  cbn zeta. eexists _, "SUCCESS", _. rewrite app_assoc. reflexivity.
Qed.

Lemma purge_bucket_run :
  WebsiteHelper.purge_bucket w event context
  = (inr tt,
     match deployment_bucket_of event with
     | None => [respond "FAILED" WebsiteHelper.error_response_str]
     | Some deployment_bucket =>
         let bucket_name := hd "" (split "." deployment_bucket) in
         WebsiteHelper.PutBucketLogging bucket_name
         :: match WebsiteHelper.s3_put_bucket_logging w bucket_name with
            | inl _ => [respond "FAILED" WebsiteHelper.error_response_str]
            | inr _ =>
                [ WebsiteHelper.DeleteObjects bucket_name;
                  match WebsiteHelper.s3_delete_objects w bucket_name with
                  | inl _ => respond "FAILED" WebsiteHelper.error_response_str
                  | inr _ => respond "SUCCESS" "Resource creation successful!"
                  end ]
            end
     end).
Proof.
  unfold WebsiteHelper.purge_bucket, WebsiteHelper.resource_property,
    deployment_bucket_of, getitem, index.
  delivered.
  destruct (WebsiteHelper.ResourceProperties event) as [props|]; [|reflexivity].
  destruct (props !! "DeploymentBucket") as [db|]; [|reflexivity].
  cbn [mbind M_bind bind mret M_ret ret app].
  destruct (split_cons "." db) as [h [tl Hsplit]]. rewrite Hsplit.
  change ((h :: tl) !! 0%nat) with (Some h).
  cbn [hd mbind M_bind bind mret M_ret ret emit app].
  destruct (WebsiteHelper.s3_put_bucket_logging w h) as [what|[]];
    [reflexivity|].
  destruct (WebsiteHelper.s3_delete_objects w h) as [what|[]]; reflexivity.
Qed.

(** X16: when the event carries the fields [send_response] reads and the
    response URL accepts every callback, [purge_bucket] returns and sends
    exactly one callback: FAILED when the event has no DeploymentBucket,
    when access logging cannot be stopped (the objects are then not
    deleted) or when the objects cannot be deleted; SUCCESS only after
    both calls on the bucket succeeded, logging first. *)
Theorem purge_bucket_sends_one_callback :
  let failed := callback context url stack_id request_id logical_id "FAILED"
                         WebsiteHelper.error_response_str in
  let success := callback context url stack_id request_id logical_id "SUCCESS"
                          "Resource creation successful!" in
  WebsiteHelper.purge_bucket w event context
  = (inr tt,
     match deployment_bucket_of event with
     | None => [failed]
     | Some deployment_bucket =>
         let bucket_name := hd "" (split "." deployment_bucket) in
         WebsiteHelper.PutBucketLogging bucket_name
         :: match WebsiteHelper.s3_put_bucket_logging w bucket_name with
            | inl _ => [failed]
            | inr _ =>
                [ WebsiteHelper.DeleteObjects bucket_name;
                  match WebsiteHelper.s3_delete_objects w bucket_name with
                  | inl _ => failed
                  | inr _ => success
                  end ]
            end
     end)
  /\ length (callbacks_of (events (WebsiteHelper.purge_bucket w event context)))
     = 1%nat.
Proof.
  intros failed success. rewrite purge_bucket_run. split; [reflexivity|].
  cbn [events snd]. destruct (deployment_bucket_of event); [|reflexivity].
  cbn zeta.
  destruct (WebsiteHelper.s3_put_bucket_logging w _); [reflexivity|].
  destruct (WebsiteHelper.s3_delete_objects w _); reflexivity.
Qed.

Lemma lambda_handler_run :
  WebsiteHelper.lambda_handler w event context
  = match WebsiteHelper.fields event !! "RequestType" with
    | None =>
        (inr tt,
         [respond "FAILED" "Exception during processing: 'RequestType'"])
    | Some request_type =>
        if String.eqb request_type "Create"
        then WebsiteHelper.copy_source w event context
        else if String.eqb request_type "Update"
        then WebsiteHelper.copy_source w event context
        else if String.eqb request_type "Delete"
        then (inr tt,
              events (WebsiteHelper.purge_bucket w event context)
                ++ [respond "SUCCESS" "Resource deletion successful!"])
        else (inr tt, [respond "FAILED" WebsiteHelper.error_response_str])
    end.
Proof.
  unfold WebsiteHelper.lambda_handler, getitem, try_except.
  destruct (WebsiteHelper.fields event !! "RequestType") as [rt|].
  2: { cbn [mbind M_bind bind raise try_except_else WebsiteHelper.str_exn].
       delivered. reflexivity. }
  cbn [mbind M_bind bind ret mret M_ret app].
  destruct (String.eqb rt "Create"); [|destruct (String.eqb rt "Update")];
    [| |destruct (String.eqb rt "Delete")].
  1-2: destruct copy_source_returns as (tr & status & message & Hrun);
       rewrite Hrun; cbn; rewrite app_nil_r; reflexivity.
  - rewrite purge_bucket_run. delivered.
    cbn. rewrite app_nil_r. reflexivity.
  - delivered. reflexivity.
Qed.

(** X17: when the event carries the fields [send_response] reads and the
    response URL accepts every callback, [lambda_handler] sends two
    callbacks for a Delete request: the one of [purge_bucket] and then
    SUCCESS "Resource deletion successful!" of its own, also when the
    purge has just reported FAILED. *)
Theorem lambda_handler_delete_reports_twice :
  WebsiteHelper.fields event !! "RequestType" = Some "Delete" ->
  WebsiteHelper.lambda_handler w event context
  = (inr tt,
     events (WebsiteHelper.purge_bucket w event context)
       ++ [callback context url stack_id request_id logical_id "SUCCESS"
                    "Resource deletion successful!"])
  /\ exists status,
       callbacks_of (events (WebsiteHelper.lambda_handler w event context))
       = [ (status,
            [("Message",
              if String.eqb status "SUCCESS"
              then "Resource creation successful!"
              else WebsiteHelper.error_response_str)]);
           ("SUCCESS", [("Message", "Resource deletion successful!")]) ].
Proof.
  intros Htype. rewrite lambda_handler_run, Htype. cbn [String.eqb Ascii.eqb].
  split; [reflexivity|]. rewrite purge_bucket_run. cbn [events snd].
  destruct (deployment_bucket_of event); [|exists "FAILED"; reflexivity].
  cbn zeta.
  destruct (WebsiteHelper.s3_put_bucket_logging w _);
    [exists "FAILED"; reflexivity|].
  destruct (WebsiteHelper.s3_delete_objects w _);
    [exists "FAILED"|exists "SUCCESS"]; reflexivity.
Qed.

(** X18: when the event carries the fields [send_response] reads and the
    response URL accepts every callback, a request type other than
    Create, Update and Delete is answered with one FAILED callback and
    nothing is done in S3. *)
Theorem lambda_handler_unknown_request_type (request_type : string) :
  WebsiteHelper.fields event !! "RequestType" = Some request_type ->
  request_type <> "Create" -> request_type <> "Update" ->
  request_type <> "Delete" ->
  WebsiteHelper.lambda_handler w event context
  = (inr tt,
     [callback context url stack_id request_id logical_id "FAILED"
               WebsiteHelper.error_response_str]).
Proof.
  intros Htype Hc Hu Hd. rewrite lambda_handler_run, Htype.
  apply String.eqb_neq in Hc, Hu, Hd. rewrite Hc, Hu, Hd. reflexivity.
Qed.


(** X20: whatever the event, the world and the outcome of the S3 calls,
    [lambda_handler] returns without raising and the last thing it does is
    a callback to CloudFormation, so every invocation is answered; for
    Create and Update it does exactly what [copy_source] does. *)
Theorem lambda_handler_always_responds :
  outcome (WebsiteHelper.lambda_handler w event context) = inr tt
  /\ (exists tr status message,
        events (WebsiteHelper.lambda_handler w event context)
        = tr ++ [callback context url stack_id request_id logical_id
                          status message])
  /\ (forall request_type,
        WebsiteHelper.fields event !! "RequestType" = Some request_type ->
        request_type = "Create" \/ request_type = "Update" ->
        WebsiteHelper.lambda_handler w event context
        = WebsiteHelper.copy_source w event context).
Proof.
  rewrite lambda_handler_run.
  destruct copy_source_returns as (tr & status & message & Hrun).
  split; [|split].
  - destruct (WebsiteHelper.fields event !! "RequestType") as [rt|];
      [|reflexivity].
    rewrite Hrun.
    destruct (String.eqb rt "Create"); [reflexivity|].
    destruct (String.eqb rt "Update"); [reflexivity|].
    destruct (String.eqb rt "Delete"); reflexivity.
  - destruct (WebsiteHelper.fields event !! "RequestType") as [rt|].
    2: { exists [], "FAILED". eexists. reflexivity. }
    rewrite Hrun.
    destruct (String.eqb rt "Create"); [exists tr, status, message; reflexivity|].
    destruct (String.eqb rt "Update"); [exists tr, status, message; reflexivity|].
    destruct (String.eqb rt "Delete").
    + eexists _, "SUCCESS", _. reflexivity.
    + exists [], "FAILED". eexists. reflexivity.
  - intros rt Htype [-> | ->]; rewrite Htype; reflexivity.
Qed.

End Responses.



Lemma purge_bucket_sends_one_callback_witness :
  length (callbacks_of
            (events (WebsiteHelper.purge_bucket
                       (full_world (inr tt) (inl "AccessDenied"))
                       sample_event sample_context))) = 1%nat.
Proof.
  exact (proj2 (purge_bucket_sends_one_callback
                  (full_world (inr tt) (inl "AccessDenied"))
                  sample_event sample_context _ _ _ _
                  eq_refl eq_refl eq_refl eq_refl (fun _ _ => eq_refl))).
Defined.

Lemma lambda_handler_delete_reports_twice_witness :
  callbacks_of
    (events (WebsiteHelper.lambda_handler
               (full_world (inr tt) (inl "AccessDenied"))
               (event_of_type (Some "Delete")) sample_context))
  = [ ("FAILED", [("Message", "Unexpected event received from CloudFormation")]);
      ("SUCCESS", [("Message", "Resource deletion successful!")]) ].
Proof.
  rewrite (proj1 (lambda_handler_delete_reports_twice
                    (full_world (inr tt) (inl "AccessDenied"))
                    (event_of_type (Some "Delete")) sample_context _ _ _ _
                    eq_refl eq_refl eq_refl eq_refl (fun _ _ => eq_refl)
                    eq_refl)).
  reflexivity.
Defined.

Lemma lambda_handler_unknown_request_type_witness :
  events (WebsiteHelper.lambda_handler failing_copy_world
            (event_of_type (Some "Replace")) sample_context)
  = [callback sample_context "https://cloudformation.example.com/response"
       "stack-1" "request-1" "CopyWebSource" "FAILED"
       "Unexpected event received from CloudFormation"].
Proof.
  rewrite (lambda_handler_unknown_request_type failing_copy_world
             (event_of_type (Some "Replace")) sample_context _ _ _ _
             eq_refl eq_refl eq_refl eq_refl (fun _ _ => eq_refl)
             "Replace" eq_refl);
    [reflexivity|discriminate..].
Defined.


Lemma lambda_handler_always_responds_witness :
  outcome (WebsiteHelper.lambda_handler failing_copy_world sample_event
                                        sample_context) = inr tt.
Proof.
  exact (proj1 (lambda_handler_always_responds failing_copy_world sample_event
                  sample_context _ _ _ _
                  eq_refl eq_refl eq_refl eq_refl (fun _ _ => eq_refl))).
Defined.
